(** * Custom fields of NetBox: validation, form fields and data synchronisation

    A shallow embedding of [netbox/extras/models/customfields.py]: the
    [CustomField] model, its [validate], [clean] and [to_form_field] methods,
    and the three bulk operations that keep the [custom_field_data] mapping of
    the assigned objects in step with the field definitions. *)

From Stdlib Require Import ZArith Ascii String List Bool Lia.
From Stdlib Require Import Floats.SpecFloat.
From stdpp Require Import gmap strings list fin_maps pretty.

Open Scope string_scope.

(** ** Values *)

(** A JSON document as Python's [json] module loads it.  [JObj] keeps the
    members in order, as a Python [dict] does. *)
#[warnings="-register-all"]
Inductive json : Type :=
| JNull
| JBool (b : bool)
| JInt (z : Z)
| JFloat (f : spec_float)
| JStr (s : string)
| JArr (items : list json)
| JObj (members : list (string * json)).

(** [datetime.date] and [datetime.datetime] objects. *)
Record date := Date { year : nat; month : nat; day : nat }.
Record time_of_day := TimeOfDay { hour : nat; minute : nat; second : nat; microsecond : nat }.

(** What [validate] can be handed: a JSON value (from the REST API or from the
    database), or a date object (from a form's [DateField]). *)
Inductive pyvalue : Type :=
| PJson (j : json)
| PDate (d : date)
| PDatetime (d : date) (t : time_of_day).

Coercion PJson : json >-> pyvalue.

(** Exceptions other than [ValidationError]. *)
Inductive exn := TypeError | AttributeError | ReError.

(** The outcome of a method: it returns, raises [ValidationError] (with the
    payload [E]), or raises something else. *)
Inductive result (E A : Type) : Type :=
| Ok (a : A)
| Invalid (e : E)
| Raised (x : exn).
Arguments Ok {E A} a.
Arguments Invalid {E A} e.
Arguments Raised {E A} x.

Definition bind {E A B} (r : result E A) (k : A -> result E B) : result E B :=
  match r with
  | Ok a => k a
  | Invalid e => Invalid e
  | Raised x => Raised x
  end.

Notation "'do' x <- r ; k" := (bind r (fun x => k))
  (at level 10, x name, r at level 100, k at level 200).
Notation "r ;; k" := (bind r (fun _ => k))
  (at level 100, k at level 200, right associativity).

(** [if cond: raise ValidationError(e)] *)
Definition raise_if {E} (cond : bool) (e : E) : result E unit :=
  if cond then Invalid e else Ok tt.

(** ** [repr] of a string, on ASCII text

    Single quotes, unless the text has a single quote and no double quote;
    the quote, the backslash and the control characters are escaped. *)
Definition quote1 : ascii := "'".
Definition quote2 : ascii := ascii_of_nat 34.
Definition backslash : ascii := ascii_of_nat 92.

Fixpoint contains_char (c : ascii) (s : string) : bool :=
  match s with
  | EmptyString => false
  | String c' rest => Ascii.eqb c c' || contains_char c rest
  end.

Definition hex_digit (n : nat) : ascii :=
  if (n <? 10)%nat then ascii_of_nat (48 + n) else ascii_of_nat (87 + n).

Definition escape_char (quote c : ascii) : string :=
  let n := nat_of_ascii c in
  if Ascii.eqb c quote || Ascii.eqb c backslash then String backslash (String c EmptyString)
  else if (n =? 9)%nat then String backslash "t"
  else if (n =? 10)%nat then String backslash "n"
  else if (n =? 13)%nat then String backslash "r"
  else if (n <? 32)%nat || (n =? 127)%nat
  then String backslash (String "x" (String (hex_digit (n / 16)) (String (hex_digit (n mod 16)) EmptyString)))
  else String c EmptyString.

Fixpoint escape_all (quote : ascii) (s : string) : string :=
  match s with
  | EmptyString => EmptyString
  | String c rest => escape_char quote c ++ escape_all quote rest
  end.

Definition str_repr (s : string) : string :=
  let quote := if contains_char quote1 s && negb (contains_char quote2 s) then quote2 else quote1 in
  String quote (escape_all quote s) ++ String quote EmptyString.

(** ** The Python library the model calls into

    The regular-expression engine and [repr] of floats are library code; the
    model takes them as an interface.  [re_spans p s i j] says that the
    compiled pattern [p] can match the slice [s[i:j]] of the subject [s] (the
    whole subject is passed because anchors look at it). *)
Class PyLib := {
  re_pattern : Type;
  re_compile : string -> option re_pattern;
  re_spans : re_pattern -> string -> nat -> nat -> bool;
  float_repr : spec_float -> string
}.

Section WithPyLib.
Context `{PyLib}.

(** [re.match(pattern, subject) is not None]: some match starts at position 0;
    it may end anywhere.  An ill-formed pattern raises [re.error]. *)
Definition re_match {E} (pattern subject : string) : result E bool :=
  match re_compile pattern with
  | None => Raised ReError
  | Some p => Ok (existsb (re_spans p subject 0) (seq 0 (S (String.length subject))))
  end.

(** [re.fullmatch] and [re.search], for comparison with [re_match]. *)
Definition re_fullmatch {E} (pattern subject : string) : result E bool :=
  match re_compile pattern with
  | None => Raised ReError
  | Some p => Ok (re_spans p subject 0 (String.length subject))
  end.

Definition re_search {E} (pattern subject : string) : result E bool :=
  match re_compile pattern with
  | None => Raised ReError
  | Some p =>
      let n := String.length subject in
      Ok (existsb (fun i => existsb (re_spans p subject i) (seq i (S n - i))) (seq 0 (S n)))
  end.

(** [", ".join(items)] *)
Definition join (sep : string) (items : list string) : string :=
  String.concat sep items.

(** [repr(j)] and [str(j)] of a JSON value. *)
Fixpoint py_repr (j : json) : string :=
  match j with
  | JNull => "None"
  | JBool true => "True"
  | JBool false => "False"
  | JInt z => pretty z
  | JFloat f => float_repr f
  | JStr s => str_repr s
  | JArr items => "[" ++ join ", " (map py_repr items) ++ "]"
  | JObj members =>
      "{" ++ join ", " (map (fun kv => str_repr (fst kv) ++ ": " ++ py_repr (snd kv)) members) ++ "}"
  end.

Definition py_str (j : json) : string :=
  match j with
  | JStr s => s
  | _ => py_repr j
  end.

End WithPyLib.

(** Truth value of a JSON value ([if x:]). *)
Definition truthy (j : json) : bool :=
  match j with
  | JNull => false
  | JBool b => b
  | JInt z => negb (z =? 0)%Z
  | JFloat (S754_zero _) => false
  | JFloat _ => true
  | JStr s => negb (String.eqb s "")
  | JArr items => negb (Nat.eqb (length items) 0)
  | JObj members => negb (Nat.eqb (length members) 0)
  end.

(** [value in [None, '']] *)
Definition is_empty_value (value : pyvalue) : bool :=
  match value with
  | PJson JNull => true
  | PJson (JStr s) => String.eqb s ""
  | _ => false
  end.

(** [value in choices], for a list of strings: only an equal string is a member. *)
Definition in_choices (j : json) (choices : list string) : bool :=
  match j with
  | JStr s => existsb (String.eqb s) choices
  | _ => false
  end.

Definition value_in_choices (value : pyvalue) (choices : list string) : bool :=
  match value with
  | PJson j => in_choices j choices
  | _ => false
  end.

(** The float [1.0] in binary64. *)
Definition float_one : spec_float := S754_finite false 4503599627370496 (-52).

(** [value in [True, False, 1, 0]]: [==] identifies [True], [1] and [1.0]. *)
Definition is_boolean_like (value : pyvalue) : bool :=
  match value with
  | PJson (JBool _) => true
  | PJson (JInt z) => (z =? 1)%Z || (z =? 0)%Z
  | PJson (JFloat f) => SFeqb f float_one || SFeqb f (S754_zero false)
  | _ => false
  end.

(** ** [datetime.strptime(value, '%Y-%m-%d')] on ASCII text

    The directive [%Y] reads four digits, [%m] reads [1[0-2]|0[1-9]|[1-9]] and
    [%d] reads [3[0-1]|[1-2]\d|0[1-9]|[1-9]| [1-9]]; nothing may follow, and
    the three numbers must name a day of the calendar.  [None] stands for
    [ValueError]. *)
Definition in_range (lo hi c : ascii) : bool :=
  (nat_of_ascii lo <=? nat_of_ascii c)%nat && (nat_of_ascii c <=? nat_of_ascii hi)%nat.

Definition is_digit (c : ascii) : bool := in_range "0" "9" c.

Definition digit_value (c : ascii) : nat := nat_of_ascii c - 48.

Fixpoint split_dash (cs : list ascii) : option (list ascii * list ascii) :=
  match cs with
  | [] => None
  | c :: rest =>
      if Ascii.eqb c "-" then Some ([], rest)
      else match split_dash rest with
           | Some (before, after) => Some (c :: before, after)
           | None => None
           end
  end.

Definition parse_year (cs : list ascii) : option nat :=
  match cs with
  | [a; b; c; d] =>
      if forallb is_digit [a; b; c; d]
      then Some (1000 * digit_value a + 100 * digit_value b + 10 * digit_value c + digit_value d)
      else None
  | _ => None
  end.

Definition parse_month (cs : list ascii) : option nat :=
  match cs with
  | [a; b] =>
      if Ascii.eqb a "1" && in_range "0" "2" b || Ascii.eqb a "0" && in_range "1" "9" b
      then Some (10 * digit_value a + digit_value b)
      else None
  | [a] => if in_range "1" "9" a then Some (digit_value a) else None
  | _ => None
  end.

Definition parse_day (cs : list ascii) : option nat :=
  match cs with
  | [a; b] =>
      if Ascii.eqb a "3" && in_range "0" "1" b
         || in_range "1" "2" a && is_digit b
         || Ascii.eqb a "0" && in_range "1" "9" b
      then Some (10 * digit_value a + digit_value b)
      else if Ascii.eqb a " " && in_range "1" "9" b then Some (digit_value b)
      else None
  | [a] => if in_range "1" "9" a then Some (digit_value a) else None
  | _ => None
  end.

Definition is_leap (y : nat) : bool :=
  (y mod 4 =? 0)%nat && (negb (y mod 100 =? 0)%nat || (y mod 400 =? 0)%nat).

Definition days_in_month (y m : nat) : nat :=
  match m with
  | 2 => if is_leap y then 29 else 28
  | 4 | 6 | 9 | 11 => 30
  | _ => 31
  end.

Definition strptime_ymd (s : string) : option date :=
  '(ys, rest) ← split_dash (list_ascii_of_string s);
  '(ms, ds) ← split_dash rest;
  y ← parse_year ys;
  m ← parse_month ms;
  d ← parse_day ds;
  if (1 <=? y)%nat && (1 <=? d)%nat && (d <=? days_in_month y m)%nat
  then Some (Date y m d) else None.

(** ** The model *)

(** Modelled from the spec: the enumerations [CustomFieldTypeChoices] and
    [CustomFieldFilterLogicChoices] of [extras.choices], which the model
    imports; the spec gives the closed sets {text, integer, boolean, date, url,
    select, multiselect} and {loose, exact}. *)
Inductive CustomFieldTypeChoices :=
| TYPE_TEXT | TYPE_INTEGER | TYPE_BOOLEAN | TYPE_DATE | TYPE_URL | TYPE_SELECT | TYPE_MULTISELECT.

Inductive CustomFieldFilterLogicChoices := FILTER_LOOSE | FILTER_EXACT.

#[global] Instance CustomFieldTypeChoices_eq_dec : EqDecision CustomFieldTypeChoices.
Proof. solve_decision. Defined.

(** A row of Django's [ContentType] table, identified by its natural key. *)
Abbreviation ContentType := string.

(** The fields of [CustomField].  [default] is a [JSONField]: [JNull] is
    Python's [None].  [choices] is a nullable array, [validation_regex] a
    string that is empty when unset. *)
Record CustomField := {
  content_types : list ContentType;
  type : CustomFieldTypeChoices;
  name : string;
  label : string;
  description : string;
  required : bool;
  filter_logic : CustomFieldFilterLogicChoices;
  default : json;
  weight : Z;
  validation_minimum : option Z;
  validation_maximum : option Z;
  validation_regex : string;
  choices : option (list string)
}.

(** The [ValidationError]s that [validate] raises, one constructor per
    message, with the values the message interpolates. *)
Inductive ValidationError :=
| ValueMustBeString
| ValueMustMatchRegex (regex : string)
| ValueMustBeInteger
| ValueMustBeAtLeast (minimum : Z)
| ValueMustNotExceed (maximum : Z)
| ValueMustBeTrueOrFalse
| DateFormatInvalid
| InvalidChoiceOf (value : pyvalue) (available : string)
| InvalidChoicesOf (values : string) (available : string)
| RequiredFieldCannotBeEmpty.

(** Modelled from the spec: the value-level error kinds of its error
    taxonomy, and the kind each failure of [validate] maps to. *)
Inductive ErrorKind :=
| RequiredFieldEmpty | TypeMismatch | OutOfRange | PatternMismatch
| InvalidDateFormat | InvalidChoice | InvalidChoiceSet.

Definition error_kind (e : ValidationError) : ErrorKind :=
  match e with
  | ValueMustBeString | ValueMustBeInteger | ValueMustBeTrueOrFalse => TypeMismatch
  | ValueMustMatchRegex _ => PatternMismatch
  | ValueMustBeAtLeast _ | ValueMustNotExceed _ => OutOfRange
  | DateFormatInvalid => InvalidDateFormat
  | InvalidChoiceOf _ _ => InvalidChoice
  | InvalidChoicesOf _ _ => InvalidChoiceSet
  | RequiredFieldCannotBeEmpty => RequiredFieldEmpty
  end.

(** *** Iteration over a value: [set(value)] and [', '.join(value)] *)

(** The items that iterating over [value] yields, when it is iterable: the
    characters of a string, the items of a list, the keys of a dict. *)
Definition iter_items (value : pyvalue) : option (list json) :=
  match value with
  | PJson (JStr s) => Some (map (fun c => JStr (String c EmptyString)) (list_ascii_of_string s))
  | PJson (JArr items) => Some items
  | PJson (JObj members) => Some (map (fun kv => JStr (fst kv)) members)
  | _ => None
  end.

Definition hashable (j : json) : bool :=
  match j with
  | JArr _ | JObj _ => false
  | _ => true
  end.

(** [set(value)]: [TypeError] when [value] is not iterable or an item is not
    hashable.  The elements are kept as a list; only membership is used. *)
Definition py_set (value : pyvalue) : result ValidationError (list json) :=
  match iter_items value with
  | None => Raised TypeError
  | Some items => if forallb hashable items then Ok items else Raised TypeError
  end.

(** [elements.issubset(choices)]: [TypeError] when [choices] is [None]. *)
Definition issubset (elements : list json) (choices : option (list string))
  : result ValidationError bool :=
  match choices with
  | None => Raised TypeError
  | Some cs => Ok (forallb (fun e => in_choices e cs) elements)
  end.

(** [', '.join(value)]: [TypeError] when [value] is not iterable or an item is
    not a string. *)
Definition as_str (j : json) : option string :=
  match j with
  | JStr s => Some s
  | _ => None
  end.

Definition join_value (value : pyvalue) : result ValidationError string :=
  match iter_items value with
  | None => Raised TypeError
  | Some items =>
      match mapM as_str items with
      | Some strs => Ok (join ", " strs)
      | None => Raised TypeError
      end
  end.

(** [', '.join(self.choices)] *)
Definition join_choices (choices : option (list string)) : result ValidationError string :=
  match choices with
  | None => Raised TypeError
  | Some cs => Ok (join ", " cs)
  end.

(** The errors that [clean] raises, each a [ValidationError] keyed by the
    attribute it is reported against. *)
Inductive CleanError :=
| InvalidDefaultValue (cause : ValidationError)
| MinimumOnNonNumeric
| MaximumOnNonNumeric
| RegexOnUnsupportedType
| ChoicesOnNonSelection
| TooFewChoices
| DefaultNotAChoice.

Definition error_attribute (e : CleanError) : string :=
  match e with
  | InvalidDefaultValue _ | DefaultNotAChoice => "default"
  | MinimumOnNonNumeric => "validation_minimum"
  | MaximumOnNonNumeric => "validation_maximum"
  | RegexOnUnsupportedType => "validation_regex"
  | ChoicesOnNonSelection | TooFewChoices => "choices"
  end.

Definition is_none (j : json) : bool :=
  match j with
  | JNull => true
  | _ => false
  end.

(** Truth value of [self.validation_regex], [self.label], [self.description]
    (strings) and of [self.choices] (a list or [None]). *)
Definition nonempty (s : string) : bool := negb (String.eqb s "").

Definition choices_set (choices : option (list string)) : bool :=
  match choices with
  | Some (_ :: _) => true
  | _ => false
  end.

Section Methods.
Context `{PyLib}.

(** *** [CustomField.validate] *)
Definition validate (self : CustomField) (value : pyvalue) : result ValidationError unit :=
  if negb (is_empty_value value) then
    (* Validate text field *)
    (if bool_decide (type self = TYPE_TEXT) then
       match value with
       | PJson (JStr s) =>
           if nonempty (validation_regex self) then
             do m <- re_match (validation_regex self) s;
             raise_if (negb m) (ValueMustMatchRegex (validation_regex self))
           else Ok tt
       | _ => Invalid ValueMustBeString
       end
     else Ok tt) ;;
    (* Validate integer *)
    (if bool_decide (type self = TYPE_INTEGER) then
       match value with
       | PJson (JInt z) =>
           match validation_minimum self with
           | Some minimum => raise_if (z <? minimum)%Z (ValueMustBeAtLeast minimum)
           | None => Ok tt
           end ;;
           match validation_maximum self with
           | Some maximum => raise_if (z >? maximum)%Z (ValueMustNotExceed maximum)
           | None => Ok tt
           end
       | _ => Invalid ValueMustBeInteger
       end
     else Ok tt) ;;
    (* Validate boolean *)
    raise_if (bool_decide (type self = TYPE_BOOLEAN) && negb (is_boolean_like value))
             ValueMustBeTrueOrFalse ;;
    (* Validate date *)
    (if bool_decide (type self = TYPE_DATE) then
       match value with
       | PDate _ => Ok tt
       | PJson (JStr s) =>
           match strptime_ymd s with
           | Some _ => Ok tt
           | None => Invalid DateFormatInvalid
           end
       | _ => Raised TypeError
       end
     else Ok tt) ;;
    (* Validate selected choice *)
    (if bool_decide (type self = TYPE_SELECT) then
       match choices self with
       | None => Raised TypeError
       | Some cs =>
           raise_if (negb (value_in_choices value cs)) (InvalidChoiceOf value (join ", " cs))
       end
     else Ok tt) ;;
    (* Validate all selected choices *)
    (if bool_decide (type self = TYPE_MULTISELECT) then
       do elements <- py_set value;
       do subset <- issubset elements (choices self);
       if negb subset then
         do values <- join_value value;
         do available <- join_choices (choices self);
         Invalid (InvalidChoicesOf values available)
       else Ok tt
     else Ok tt)
  else if required self then Invalid RequiredFieldCannotBeEmpty
  else Ok tt.

(** The value that [clean] hands to [validate]: the default itself, or its
    [str] when the field is a text field. *)
Definition default_value (self : CustomField) : pyvalue :=
  if bool_decide (type self = TYPE_TEXT) then PJson (JStr (py_str (default self)))
  else PJson (default self).

(** [self.default not in self.choices] *)
Definition default_not_in_choices (self : CustomField) : result CleanError bool :=
  match choices self with
  | None => Raised TypeError
  | Some cs => Ok (negb (in_choices (default self) cs))
  end.

(** *** [CustomField.clean] *)
Definition clean (self : CustomField) : result CleanError unit :=
  (* Validate the field's default value (if any) *)
  (if negb (is_none (default self)) then
     match validate self (default_value self) with
     | Ok _ => Ok tt
     | Invalid err => Invalid (InvalidDefaultValue err)
     | Raised x => Raised x
     end
   else Ok tt) ;;
  (* Minimum/maximum values can be set only for numeric fields *)
  raise_if (bool_decide (validation_minimum self <> None)
            && negb (bool_decide (type self = TYPE_INTEGER))) MinimumOnNonNumeric ;;
  raise_if (bool_decide (validation_maximum self <> None)
            && negb (bool_decide (type self = TYPE_INTEGER))) MaximumOnNonNumeric ;;
  (* Regex validation can be set only for text fields *)
  raise_if (nonempty (validation_regex self)
            && negb (bool_decide (type self = TYPE_TEXT) || bool_decide (type self = TYPE_URL)))
           RegexOnUnsupportedType ;;
  (* Choices can be set only on selection fields *)
  raise_if (choices_set (choices self)
            && negb (bool_decide (type self = TYPE_SELECT)
                     || bool_decide (type self = TYPE_MULTISELECT)))
           ChoicesOnNonSelection ;;
  (* A selection field must have at least two choices defined *)
  raise_if (bool_decide (type self = TYPE_SELECT) && choices_set (choices self)
            && (length (from_option id [] (choices self)) <? 2)%nat)
           TooFewChoices ;;
  (* A selection field's default (if any) must be present in its available choices *)
  (if bool_decide (type self = TYPE_SELECT) && truthy (default self) then
     do missing <- default_not_in_choices self;
     raise_if missing DefaultNotAChoice
   else Ok tt).

End Methods.

(** ** Form fields *)

Inductive FieldClass :=
| IntegerField | NullBooleanField | DateField | ChoiceField | MultipleChoiceField
| CSVChoiceField | LaxURLField | CharField.

Inductive Widget :=
| DefaultWidget
| StaticSelect2 (options : list (option bool * string))
| StaticSelect2Multiple
| DatePicker.

Record RegexValidator := { regex : string; message : string }.

(** What [to_form_field] sets on the field it builds.  [validators] is [None]
    while the field keeps the validators of its class, [model] until the
    attribute is set. *)
Record FormField := {
  field_class : FieldClass;
  field_required : bool;
  initial : json;
  min_value : option Z;
  max_value : option Z;
  max_length : option nat;
  field_choices : list (option string * string);
  widget : Widget;
  validators : option (list RegexValidator);
  model : option CustomField;
  field_label : string;
  help_text : string
}.

(** Modelled from the spec: [add_blank_choice] of [utilities.forms], which
    prefixes a choice list with a blank, no-value option. *)
Definition add_blank_choice (cs : list (option string * string))
  : list (option string * string) :=
  (None, "---------") :: cs.

(** [str.replace('_', ' ')] and [str.capitalize()] on ASCII text. *)
Definition ascii_upper (c : ascii) : ascii :=
  if in_range "a" "z" c then ascii_of_nat (nat_of_ascii c - 32) else c.

Definition ascii_lower (c : ascii) : ascii :=
  if in_range "A" "Z" c then ascii_of_nat (nat_of_ascii c + 32) else c.

Fixpoint string_map (f : ascii -> ascii) (s : string) : string :=
  match s with
  | EmptyString => EmptyString
  | String c rest => String (f c) (string_map f rest)
  end.

Definition replace_char (old new : ascii) (s : string) : string :=
  string_map (fun c => if Ascii.eqb c old then new else c) s.

Definition capitalize (s : string) : string :=
  match s with
  | EmptyString => EmptyString
  | String c rest => String (ascii_upper c) (string_map ascii_lower rest)
  end.

(** [CustomField.__str__] *)
Definition CustomField_str (self : CustomField) : string :=
  if nonempty (label self) then label self
  else capitalize (replace_char "_" " " (name self)).

Definition is_selection_type (t : CustomFieldTypeChoices) : bool :=
  bool_decide (t = TYPE_SELECT) || bool_decide (t = TYPE_MULTISELECT).

(** *** [CustomField.to_form_field] *)

(** A field of class [cls] as its constructor leaves it, before
    [to_form_field] sets [model], [label] and [help_text]. *)
Definition new_field (cls : FieldClass) (req : bool) (init : json) : FormField :=
  {| field_class := cls; field_required := req; initial := init;
     min_value := None; max_value := None; max_length := None;
     field_choices := []; widget := DefaultWidget; validators := None;
     model := None; field_label := ""; help_text := "" |}.

Definition with_bounds (lo hi : option Z) (f : FormField) : FormField :=
  {| field_class := field_class f; field_required := field_required f; initial := initial f;
     min_value := lo; max_value := hi; max_length := max_length f;
     field_choices := field_choices f; widget := widget f; validators := validators f;
     model := model f; field_label := field_label f; help_text := help_text f |}.

Definition with_widget (w : Widget) (f : FormField) : FormField :=
  {| field_class := field_class f; field_required := field_required f; initial := initial f;
     min_value := min_value f; max_value := max_value f; max_length := max_length f;
     field_choices := field_choices f; widget := w; validators := validators f;
     model := model f; field_label := field_label f; help_text := help_text f |}.

Definition with_choices (cs : list (option string * string)) (f : FormField) : FormField :=
  {| field_class := field_class f; field_required := field_required f; initial := initial f;
     min_value := min_value f; max_value := max_value f; max_length := max_length f;
     field_choices := cs; widget := widget f; validators := validators f;
     model := model f; field_label := field_label f; help_text := help_text f |}.

Definition with_max_length (n : nat) (f : FormField) : FormField :=
  {| field_class := field_class f; field_required := field_required f; initial := initial f;
     min_value := min_value f; max_value := max_value f; max_length := Some n;
     field_choices := field_choices f; widget := widget f; validators := validators f;
     model := model f; field_label := field_label f; help_text := help_text f |}.

Definition with_validators (vs : list RegexValidator) (f : FormField) : FormField :=
  {| field_class := field_class f; field_required := field_required f; initial := initial f;
     min_value := min_value f; max_value := max_value f; max_length := max_length f;
     field_choices := field_choices f; widget := widget f; validators := Some vs;
     model := model f; field_label := field_label f; help_text := help_text f |}.

(** The last lines of [to_form_field]: [field.model], [field.label] and,
    when there is a description, [field.help_text]. *)
Definition finish_field (self : CustomField) (f : FormField) : FormField :=
  {| field_class := field_class f; field_required := field_required f; initial := initial f;
     min_value := min_value f; max_value := max_value f; max_length := max_length f;
     field_choices := field_choices f; widget := widget f; validators := validators f;
     model := Some self;
     field_label := CustomField_str self;
     help_text := if nonempty (description self) then description self else help_text f |}.

Definition to_form_field (self : CustomField)
    (set_initial enforce_required for_csv_import : bool) : result ValidationError FormField :=
  let init := if set_initial then default self else JNull in
  let req := if enforce_required then required self else false in
  do field <-
    (* Integer *)
    (if bool_decide (type self = TYPE_INTEGER) then
       Ok (with_bounds (validation_minimum self) (validation_maximum self)
             (new_field IntegerField req init))
     (* Boolean *)
     else if bool_decide (type self = TYPE_BOOLEAN) then
       let options := [(None, "---------"); (Some true, "True"); (Some false, "False")] in
       Ok (with_widget (StaticSelect2 options) (new_field NullBooleanField req init))
     (* Date *)
     else if bool_decide (type self = TYPE_DATE) then
       Ok (with_widget DatePicker (new_field DateField req init))
     (* Select *)
     else if is_selection_type (type self) then
       match choices self with
       | None => Raised TypeError
       | Some cs =>
           let options := map (fun c => (Some c, c)) cs in
           let default_choice := if in_choices (default self) cs then default self else JNull in
           let options :=
             if negb req || is_none default_choice then add_blank_choice options
             else options in
           (* Set the initial value to the first available choice (if any) *)
           let init := if set_initial && truthy default_choice then default_choice else init in
           if bool_decide (type self = TYPE_SELECT) then
             let cls := if for_csv_import then CSVChoiceField else ChoiceField in
             Ok (with_widget (StaticSelect2 []) (with_choices options (new_field cls req init)))
           else
             let cls := if for_csv_import then CSVChoiceField else MultipleChoiceField in
             Ok (with_widget StaticSelect2Multiple
                   (with_choices options (new_field cls req init)))
       end
     (* URL *)
     else if bool_decide (type self = TYPE_URL) then
       Ok (new_field LaxURLField req init)
     (* Text *)
     else
       let field := with_max_length 255 (new_field CharField req init) in
       if nonempty (validation_regex self) then
         Ok (with_validators
               [ {| regex := validation_regex self;
                    message := "Values must match this regex: <code>"
                               ++ validation_regex self ++ "</code>" |} ]
               field)
       else Ok field);
  Ok (finish_field self field).

(** ** Object data

    Every model with custom fields has a [custom_field_data] column, a JSON
    object.  A table maps the primary key of each object to that mapping; the
    database maps a content type to the table of its model. *)
Abbreviation Table := (gmap nat (gmap string json)).
Abbreviation Database := (gmap string Table).


Definition filter_isnull_false (key : string) (objects : Table) : Table :=
  filter (fun row => is_Some (row.2 !! key)) objects.

Definition bulk_update (instances objects : Table) : Table :=
  map_imap (fun pk stored => Some (from_option id stored (instances !! pk))) objects.


(** [for ct in content_types: model = ct.model_class(); ...]: [body] is run
    on the table of each content type in turn.  A content type without a model
    class makes [model.objects] raise [AttributeError]; the tables written
    before stay written. *)
Fixpoint for_each_model (body : Table -> Table) (cts : list ContentType) (db : Database)
  : Database * option exn :=
  match cts with
  | [] => (db, None)
  | ct :: rest =>
      match db !! ct with
      | None => (db, Some AttributeError)
      | Some objects => for_each_model body rest (<[ct := body objects]> db)
      end
  end.





(** [d[new_name] = d.pop(old_name)].  On a missing key [pop] raises
    [KeyError]; the instances are selected on [old_name], so the case does not
    arise, and the function returns such data unchanged. *)
Definition move_key (old_name new_name : string) (data : gmap string json)
  : gmap string json :=
  match data !! old_name with
  | Some v => <[new_name := v]> (delete old_name data)
  | None => data
  end.

Definition rename_model (old_name new_name : string) (objects : Table) : Table :=
  let instances := filter_isnull_false old_name objects in
  let instances := move_key old_name new_name <$> instances in
  bulk_update instances objects.

(** *** [CustomField.rename_object_data] *)
Definition rename_object_data (self : CustomField) (old_name new_name : string) (db : Database)
  : Database * option exn :=
  for_each_model (rename_model old_name new_name) (content_types self) db.

(** ** A small regular-expression engine

    An implementation of the engine's interface for a fragment of Python's
    pattern syntax: literals, [.], [\d], escaped punctuation, classes such as
    [[A-Za-z_]], the anchors [^] and [$], groups, [|], and the quantifiers
    [*], [+], [?], [{n}] and [{n,m}].  A pattern outside the fragment does not
    compile.  The examples run the model on it. *)
Module SimpleRe.

Inductive regex :=
| Empty
| Chr (c : ascii)
| AnyChar
| Class (ranges : list (ascii * ascii))
| Bol
| Eol
| Seq (r1 r2 : regex)
| Alt (r1 r2 : regex)
| Star (r : regex).

Definition newline : ascii := ascii_of_nat 10.

Definition one_char (accept : ascii -> bool) (s : list ascii) (i : nat) : list nat :=
  match s !! i with
  | Some c => if accept c then [S i] else []
  | None => []
  end.

(** The positions where a match of [r] that starts at [i] can end. *)
Fixpoint ends (r : regex) (s : list ascii) (i : nat) : list nat :=
  match r with
  | Empty => [i]
  | Chr c => one_char (Ascii.eqb c) s i
  | AnyChar => one_char (fun c => negb (Ascii.eqb c newline)) s i
  | Class ranges => one_char (fun c => existsb (fun lh => in_range (fst lh) (snd lh) c) ranges) s i
  | Bol => if (i =? 0)%nat then [i] else []
  | Eol =>
      if (i =? length s)%nat then [i]
      else if (S i =? length s)%nat && bool_decide (s !! i = Some newline) then [i]
      else []
  | Seq r1 r2 => flat_map (ends r2 s) (ends r1 s i)
  | Alt r1 r2 => ends r1 s i ++ ends r2 s i
  | Star r' =>
      (fix loop (fuel : nat) (i : nat) : list nat :=
         i :: match fuel with
              | O => []
              | S fuel' =>
                  flat_map (fun j => if (i <? j)%nat then loop fuel' j else []) (ends r' s i)
              end) (length s) i
  end.

Definition spans (r : regex) (subject : string) (i j : nat) : bool :=
  existsb (Nat.eqb j) (ends r (list_ascii_of_string subject) i).

(** *** Patterns *)

Fixpoint repeat_seq (n : nat) (r : regex) : regex :=
  match n with
  | O => Empty
  | S n' => Seq r (repeat_seq n' r)
  end.

Fixpoint repeat_opt (n : nat) (r : regex) : regex :=
  match n with
  | O => Empty
  | S n' => Alt (Seq r (repeat_opt n' r)) Empty
  end.

Fixpoint read_number (cs : list ascii) (acc : option nat) : option nat * list ascii :=
  match cs with
  | c :: rest =>
      if is_digit c then read_number rest (Some (10 * from_option id 0 acc + digit_value c))
      else (acc, cs)
  | [] => (acc, cs)
  end.

(** The body of a class, after the opening bracket. *)
Fixpoint read_class (cs : list ascii) (acc : list (ascii * ascii))
  : option (list (ascii * ascii) * list ascii) :=
  match cs with
  | [] => None
  | c :: rest =>
      if Ascii.eqb c "]" then Some (rev acc, rest)
      else if Ascii.eqb c "\" || Ascii.eqb c "[" || Ascii.eqb c "^" then None
      else match rest with
           | d :: hi :: rest' =>
               if Ascii.eqb d "-" && negb (Ascii.eqb hi "]")
               then read_class rest' ((c, hi) :: acc)
               else read_class rest ((c, c) :: acc)
           | _ => read_class rest ((c, c) :: acc)
           end
  end.

(** The quantifiers that follow an atom. *)
Definition read_quantifier (r : regex) (cs : list ascii) : option (regex * list ascii) :=
  match cs with
  | c :: rest =>
      if Ascii.eqb c "*" then Some (Star r, rest)
      else if Ascii.eqb c "+" then Some (Seq r (Star r), rest)
      else if Ascii.eqb c "?" then Some (Alt r Empty, rest)
      else if Ascii.eqb c "{" then
        match read_number rest None with
        | (Some n, c1 :: rest1) =>
            if Ascii.eqb c1 "}" then Some (repeat_seq n r, rest1)
            else if Ascii.eqb c1 "," then
              match read_number rest1 None with
              | (Some m, c2 :: rest2) =>
                  if Ascii.eqb c2 "}" && (n <=? m)%nat
                  then Some (Seq (repeat_seq n r) (repeat_opt (m - n) r), rest2)
                  else None
              | _ => None
              end
            else None
        | _ => None
        end
      else Some (r, cs)
  | [] => Some (r, cs)
  end.

Definition is_punctuation (c : ascii) : bool :=
  negb (is_digit c || in_range "a" "z" c || in_range "A" "Z" c).

Fixpoint parse_alt (fuel : nat) (cs : list ascii) : option (regex * list ascii) :=
  match fuel with
  | O => None
  | S fuel' =>
      '(r1, rest) ← parse_seq fuel' cs;
      match rest with
      | c :: rest' =>
          if Ascii.eqb c "|" then
            '(r2, rest'') ← parse_alt fuel' rest'; Some (Alt r1 r2, rest'')
          else Some (r1, rest)
      | [] => Some (r1, rest)
      end
  end
with parse_seq (fuel : nat) (cs : list ascii) : option (regex * list ascii) :=
  match fuel with
  | O => None
  | S fuel' =>
      match cs with
      | [] => Some (Empty, cs)
      | c :: _ =>
          if Ascii.eqb c "|" || Ascii.eqb c ")" then Some (Empty, cs)
          else
            '(atom, rest) ← parse_atom fuel' cs;
            '(item, rest') ← read_quantifier atom rest;
            '(more, rest'') ← parse_seq fuel' rest';
            Some (Seq item more, rest'')
      end
  end
with parse_atom (fuel : nat) (cs : list ascii) : option (regex * list ascii) :=
  match fuel with
  | O => None
  | S fuel' =>
      match cs with
      | [] => None
      | c :: rest =>
          if Ascii.eqb c "(" then
            '(r, rest') ← parse_alt fuel' rest;
            match rest' with
            | c' :: rest'' => if Ascii.eqb c' ")" then Some (r, rest'') else None
            | [] => None
            end
          else if Ascii.eqb c "[" then
            '(ranges, rest') ← read_class rest []; Some (Class ranges, rest')
          else if Ascii.eqb c "\" then
            match rest with
            | e :: rest' =>
                if Ascii.eqb e "d" then Some (Class [("0", "9")], rest')%char
                else if is_punctuation e then Some (Chr e, rest')
                else None
            | [] => None
            end
          else if Ascii.eqb c "." then Some (AnyChar, rest)
          else if Ascii.eqb c "^" then Some (Bol, rest)
          else if Ascii.eqb c "$" then Some (Eol, rest)
          else if Ascii.eqb c "*" || Ascii.eqb c "+" || Ascii.eqb c "?"
                  || Ascii.eqb c "{" || Ascii.eqb c "}" || Ascii.eqb c "]" then None
          else Some (Chr c, rest)
      end
  end.

Definition compile (pattern : string) : option regex :=
  let cs := list_ascii_of_string pattern in
  match parse_alt (3 * length cs + 3) cs with
  | Some (r, []) => Some r
  | _ => None
  end.

End SimpleRe.

(** ** [repr] of a float

    Python prints the shortest decimal that reads back as the same binary64
    number (the nearest to it among the shortest), in positional notation when
    the decimal point falls within sixteen digits and in exponent notation
    otherwise.  A finite float is [m * 2^e]. *)
Module PyFloat.

(** The mantissa brought to 53 bits where the exponent range allows it. *)
Definition canonical (m : positive) (e : Z) : Z * Z :=
  let shift := Z.min (53 - (Z.log2 (Zpos m) + 1)) (e + 1074) in
  if (0 <? shift)%Z then (Zpos m * 2 ^ shift, e - shift)%Z else (Zpos m, e).

(** [c * 10^k] against [x * 2^e], on integers. *)
Definition compare_scaled (c k x e : Z) : comparison :=
  (c * 10 ^ Z.max k 0 * 2 ^ Z.max (- e) 0 ?= x * 2 ^ Z.max e 0 * 10 ^ Z.max (- k) 0)%Z.

(** The [d] with [10^(d-1) <= x * 2^e < 10^d], found near an estimate from
    the binary length. *)
Fixpoint adjust_point (fuel : nat) (x e d : Z) : Z :=
  match fuel with
  | O => d
  | S fuel' =>
      match compare_scaled 1 d x e with
      | Gt =>
          match compare_scaled 1 (d - 1) x e with
          | Gt => adjust_point fuel' x e (d - 1)
          | _ => d
          end
      | _ => adjust_point fuel' x e (d + 1)
      end
  end%Z.

Definition decimal_point (x e : Z) : Z :=
  adjust_point 8 x e (((Z.log2 x + 1 + e) * 30103) / 100000)%Z.

(** The decimal with [n] digits nearest to [v4 * 2^e2] that lies between
    [lo4 * 2^e2] and [hi4 * 2^e2], if there is one: its coefficient and its
    power of ten. *)
Definition candidate (v4 lo4 hi4 e2 : Z) (closed : bool) (point : Z) (n : Z)
  : option (Z * Z) :=
  let k := (point - n)%Z in
  let num := (v4 * 2 ^ Z.max e2 0 * 10 ^ Z.max (- k) 0)%Z in
  let den := (2 ^ Z.max (- e2) 0 * 10 ^ Z.max k 0)%Z in
  let below := (num / den)%Z in
  let above := if (num mod den =? 0)%Z then below else (below + 1)%Z in
  let inside (c : Z) : bool :=
    match compare_scaled c k lo4 e2, compare_scaled c k hi4 e2 with
    | Gt, Lt => true
    | Eq, Lt | Gt, Eq => closed
    | _, _ => false
    end in
  match inside below, inside above with
  | true, true =>
      match (2 * num ?= (below + above) * den)%Z with
      | Gt => Some (above, k)
      | Lt => Some (below, k)
      | Eq => Some (if Z.even below then below else above, k)
      end
  | true, false => Some (below, k)
  | false, true => Some (above, k)
  | false, false => None
  end.

Fixpoint shortest (fuel : nat) (v4 lo4 hi4 e2 : Z) (closed : bool) (point n : Z)
  : Z * Z :=
  match fuel with
  | O => (v4, e2)
  | S fuel' =>
      match candidate v4 lo4 hi4 e2 closed point n with
      | Some ck => ck
      | None => shortest fuel' v4 lo4 hi4 e2 closed point (n + 1)
      end
  end.

Fixpoint strip_zeros (fuel : nat) (c : Z) : Z :=
  match fuel with
  | O => c
  | S fuel' => if (c mod 10 =? 0)%Z && negb (c =? 0)%Z then strip_zeros fuel' (c / 10) else c
  end.

(** The digits of the shortest decimal and the position of its point:
    the float is [0.d1...dn * 10^point]. *)
Definition shortest_digits (m : positive) (e : Z) : string * Z :=
  let '(cm, ce) := canonical m e in
  let e2 := (ce - 2)%Z in
  let v4 := (4 * cm)%Z in
  let lo4 := if (cm =? 2 ^ 52)%Z && (-1074 <? ce)%Z then (v4 - 1)%Z else (v4 - 2)%Z in
  let hi4 := (v4 + 2)%Z in
  let '(c, k) := shortest 17 v4 lo4 hi4 e2 (Z.even cm) (decimal_point v4 e2) 1 in
  let all := pretty c in
  (pretty (strip_zeros 20 c), k + Z.of_nat (String.length all))%Z.

Fixpoint zeros (n : nat) : string :=
  match n with
  | O => ""
  | S n' => String "0" (zeros n')
  end.

Definition format_digits (digits : string) (point : Z) : string :=
  let n := Z.of_nat (String.length digits) in
  if (point <=? -4)%Z || (16 <? point)%Z then
    let x := (point - 1)%Z in
    let mantissa :=
      match digits with
      | String d EmptyString => digits
      | String d rest => String d (String "." rest)
      | EmptyString => digits
      end in
    let xs := pretty (Z.abs x) in
    mantissa ++ "e" ++ (if (x <? 0)%Z then "-" else "+")
             ++ (if (String.length xs <? 2)%nat then "0" else "") ++ xs
  else if (point <=? 0)%Z then "0." ++ zeros (Z.to_nat (- point)) ++ digits
  else if (n <=? point)%Z then digits ++ zeros (Z.to_nat (point - n)) ++ ".0"
  else substring 0 (Z.to_nat point) digits ++ "."
       ++ substring (Z.to_nat point) (Z.to_nat (n - point)) digits.

Definition repr (f : spec_float) : string :=
  match f with
  | S754_zero s => if s then "-0.0" else "0.0"
  | S754_infinity s => if s then "-inf" else "inf"
  | S754_nan => "nan"
  | S754_finite s m e =>
      let '(digits, point) := shortest_digits m e in
      (if s then "-" else "") ++ format_digits digits point
  end.

End PyFloat.

(** The library the examples run on. *)
#[global] Instance simple_lib : PyLib := {|
  re_pattern := SimpleRe.regex;
  re_compile := SimpleRe.compile;
  re_spans := SimpleRe.spans;
  float_repr := PyFloat.repr
|}.

(** ** Field definitions and tables used in the examples *)

(** [CustomField(type=t, name=nm, ...)], the other attributes at their
    defaults. *)
Definition make_field (t : CustomFieldTypeChoices) (nm : string) (req : bool) (dflt : json)
    (lo hi : option Z) (re : string) (cs : option (list string)) (cts : list ContentType)
  : CustomField :=
  {| content_types := cts; type := t; name := nm; label := ""; description := "";
     required := req; filter_logic := FILTER_LOOSE; default := dflt; weight := 100;
     validation_minimum := lo; validation_maximum := hi; validation_regex := re;
     choices := cs |}.

Definition text_anchored : CustomField :=
  make_field TYPE_TEXT "code" false JNull None None "^[A-Z]{3}$" None [].

Definition text_unanchored : CustomField :=
  make_field TYPE_TEXT "code" false JNull None None "[A-Z]{3}" None [].

Definition text_required_star : CustomField :=
  make_field TYPE_TEXT "code" true JNull None None "a*" None [].

Definition text_default_5 : CustomField :=
  make_field TYPE_TEXT "note" false (JInt 5) None None "" None [].

Definition integer_1_10 : CustomField :=
  make_field TYPE_INTEGER "units" false JNull (Some 1%Z) (Some 10%Z) "" None [].

Definition date_field : CustomField :=
  make_field TYPE_DATE "installed" false JNull None None "" None [].

Definition select_choices (cs : option (list string)) (dflt : json) : CustomField :=
  make_field TYPE_SELECT "colour" false dflt None None "" cs [].

Definition multiselect_abc (dflt : json) : CustomField :=
  make_field TYPE_MULTISELECT "tags" false dflt None None "" (Some ["a"; "b"; "c"]) [].

Definition text_optional_a : CustomField :=
  make_field TYPE_TEXT "code" false JNull None None "a" None [].

Definition select_ab_x : CustomField := select_choices (Some ["a"; "b"]) (JStr "x").

Definition multiselect_default_a : CustomField := multiselect_abc (JArr [JStr "a"]).

Definition site_field (dflt : json) : CustomField :=
  make_field TYPE_INTEGER "f" false dflt None None "" None ["dcim.site"].



(** One site with the key [old] and another key. *)
Definition sites_old_other : Database :=
  {[ "dcim.site" := {[ 1%nat := {[ "old" := JInt 1; "other" := JInt 2 ]} ]} ]}.

(** * Properties *)

(** ** [validate] *)

Section ValidateFacts.
Context `{PyLib}.

Lemma is_empty_value_spec (value : pyvalue) :
  is_empty_value value = true <-> value = PJson JNull \/ value = PJson (JStr "").
Proof.
  split.
  - destruct value as [[]| |]; simpl; try discriminate; auto.
    intros Hs. apply String.eqb_eq in Hs. subst. auto.
  - intros [-> | ->]; reflexivity.
Qed.

Lemma nonempty_spec (s : string) : nonempty s = true <-> s <> "".
Proof.
  unfold nonempty. rewrite negb_true_iff. split.
  - intros Hs ->. discriminate.
  - intros Hs. apply String.eqb_neq. exact Hs.
Qed.

Lemma validate_nonempty_text (self : CustomField) (value : pyvalue) :
  type self = TYPE_TEXT -> is_empty_value value = false ->
  validate self value =
    match value with
    | PJson (JStr s) =>
        if nonempty (validation_regex self) then
          do m <- re_match (validation_regex self) s;
          raise_if (negb m) (ValueMustMatchRegex (validation_regex self))
        else Ok tt
    | _ => Invalid ValueMustBeString
    end.
Proof.
  intros Htype Hvalue. unfold validate. rewrite Hvalue, Htype. simpl.
  destruct value as [[]| |]; try reflexivity.
  destruct (nonempty (validation_regex self)); [|reflexivity].
  destruct (re_match (validation_regex self) s) as [[]| |]; reflexivity.
Qed.

Lemma existsb_seq_prefix (f : nat -> bool) (n : nat) :
  existsb f (seq 0 (S n)) = true <-> exists j, j <= n /\ f j = true.
Proof.
  rewrite existsb_exists. split.
  - intros (j & Hin & Hf). apply in_seq in Hin. exists j. split; [lia | exact Hf].
  - intros (j & Hle & Hf). exists j. split; [apply in_seq; lia | exact Hf].
Qed.

(** A full match is a match of a prefix: what [re.fullmatch] accepts,
    [re.match] accepts. *)
Lemma re_fullmatch_implies_match (pattern subject : string) :
  re_fullmatch (E := ValidationError) pattern subject = Ok true ->
  re_match (E := ValidationError) pattern subject = Ok true.
Proof.
  unfold re_fullmatch, re_match.
  destruct (re_compile pattern) as [p|]; [|discriminate].
  intros [= Hfull]. f_equal. apply existsb_seq_prefix.
  exists (String.length subject). split; [lia | exact Hfull].
Qed.

(** C5 (as amended).  On a text field with a validation regex, a non-empty
    string is valid exactly when the pattern compiles and matches some prefix of
    the string, from position 0 to any end position; when the pattern compiles
    and no prefix matches, the failure is the pattern mismatch. *)
Theorem validate_text_prefix_match (self : CustomField) (s : string) :
  type self = TYPE_TEXT -> validation_regex self <> "" -> s <> "" ->
  (validate self (PJson (JStr s)) = Ok tt <->
     exists p j, re_compile (validation_regex self) = Some p
                 /\ j <= String.length s /\ re_spans p s 0 j = true)
  /\ (forall p, re_compile (validation_regex self) = Some p ->
        (forall j, j <= String.length s -> re_spans p s 0 j = false) ->
        exists e, validate self (PJson (JStr s)) = Invalid e
                  /\ e = ValueMustMatchRegex (validation_regex self)
                  /\ error_kind e = PatternMismatch).
Proof.
  intros Htype Hregex Hs.
  assert (Hne : is_empty_value (PJson (JStr s)) = false).
  { simpl. apply String.eqb_neq. exact Hs. }
  rewrite (validate_nonempty_text _ _ Htype Hne).
  apply nonempty_spec in Hregex. rewrite Hregex. unfold re_match.
  destruct (re_compile (validation_regex self)) as [p|] eqn:Hp; cbn [bind].
  - destruct (existsb (re_spans p s 0) (seq 0 (S (String.length s)))) eqn:Hex;
      cbn [negb raise_if].
    + apply existsb_seq_prefix in Hex. destruct Hex as (j & Hle & Hj). split.
      * split; [|reflexivity]. intros _. exists p, j. auto.
      * intros p' [= <-] Hnone. rewrite (Hnone j Hle) in Hj. discriminate.
    + split.
      * split; [discriminate|]. intros (p' & j & [= <-] & Hle & Hj).
        assert (Hex' : existsb (re_spans p s 0) (seq 0 (S (String.length s))) = true).
        { apply existsb_seq_prefix. exists j. auto. }
        rewrite Hex in Hex'. discriminate.
      * intros _ _ _. eexists. split; [reflexivity|]. split; reflexivity.
  - split.
    + split; [discriminate|]. intros (p' & j & Hp' & _). discriminate.
    + intros p' Hp'. discriminate.
Qed.

(** C6.  On an absent or empty value ([None] or the empty string), whatever
    the definition's type and constraints, [validate] raises the required-field
    error when [required] is set and returns without any check otherwise. *)
Theorem validate_empty_value (self : CustomField) (value : pyvalue) :
  value = PJson JNull \/ value = PJson (JStr "") ->
  validate self value = (if required self then Invalid RequiredFieldCannotBeEmpty else Ok tt)
  /\ error_kind RequiredFieldCannotBeEmpty = RequiredFieldEmpty
  /\ ((exists e, validate self value = Invalid e) <-> required self = true).
Proof.
  intros Hvalue. apply is_empty_value_spec in Hvalue.
  assert (Hv : validate self value
               = if required self then Invalid RequiredFieldCannotBeEmpty else Ok tt).
  { unfold validate. rewrite Hvalue. reflexivity. }
  split; [exact Hv|]. split; [reflexivity|].
  rewrite Hv. destruct (required self); split.
  - reflexivity.
  - intros _. eexists. reflexivity.
  - intros [e He]. discriminate.
  - discriminate.
Qed.

Lemma validate_nonempty_integer (self : CustomField) (value : pyvalue) :
  type self = TYPE_INTEGER -> is_empty_value value = false ->
  validate self value =
    match value with
    | PJson (JInt z) =>
        match validation_minimum self with
        | Some minimum => raise_if (z <? minimum)%Z (ValueMustBeAtLeast minimum)
        | None => Ok tt
        end ;;
        match validation_maximum self with
        | Some maximum => raise_if (z >? maximum)%Z (ValueMustNotExceed maximum)
        | None => Ok tt
        end
    | _ => Invalid ValueMustBeInteger
    end.
Proof.
  intros Htype Hvalue. unfold validate. rewrite Hvalue, Htype. simpl.
  destruct value as [[]| |]; try reflexivity.
  destruct (validation_minimum self) as [lo|]; simpl.
  - destruct (z <? lo)%Z; simpl; [reflexivity|].
    destruct (validation_maximum self) as [hi|]; simpl; [|reflexivity].
    destruct (z >? hi)%Z; reflexivity.
  - destruct (validation_maximum self) as [hi|]; simpl; [|reflexivity].
    destruct (z >? hi)%Z; reflexivity.
Qed.

(** C8.  On an integer field, a non-empty value is valid exactly when it is
    an integer that no set bound excludes, both bounds being inclusive; an
    integer below the minimum or above the maximum fails with an out-of-range
    error. *)
Theorem validate_integer_range (self : CustomField) (value : pyvalue) :
  type self = TYPE_INTEGER -> is_empty_value value = false ->
  (validate self value = Ok tt <->
     exists z, value = PJson (JInt z)
               /\ (forall lo, validation_minimum self = Some lo -> (lo <= z)%Z)
               /\ (forall hi, validation_maximum self = Some hi -> (z <= hi)%Z))
  /\ (forall z lo, value = PJson (JInt z) -> validation_minimum self = Some lo -> (z < lo)%Z ->
        exists e, validate self value = Invalid e /\ error_kind e = OutOfRange)
  /\ (forall z hi, value = PJson (JInt z) -> validation_maximum self = Some hi -> (hi < z)%Z ->
        exists e, validate self value = Invalid e /\ error_kind e = OutOfRange).
Proof.
  intros Htype Hvalue. rewrite (validate_nonempty_integer _ _ Htype Hvalue).
  split; [|split].
  - split.
    + destruct value as [[]| |]; try discriminate.
      intros Hok. exists z. split; [reflexivity|].
      destruct (validation_minimum self) as [lo|]; simpl in Hok.
      * destruct (Z.ltb_spec z lo); simpl in Hok; [discriminate|].
        split; [intros lo' [= <-]; lia|].
        destruct (validation_maximum self) as [hi|]; [|discriminate].
        destruct (Z.gtb_spec z hi); simpl in Hok; [discriminate|].
        intros hi' [= <-]. lia.
      * split; [discriminate|].
        destruct (validation_maximum self) as [hi|]; [|discriminate].
        destruct (Z.gtb_spec z hi); simpl in Hok; [discriminate|].
        intros hi' [= <-]. lia.
    + intros (z & -> & Hlo & Hhi).
      destruct (validation_minimum self) as [lo|]; simpl.
      * specialize (Hlo lo eq_refl).
        destruct (Z.ltb_spec z lo); [lia|]. simpl.
        destruct (validation_maximum self) as [hi|]; [|reflexivity].
        specialize (Hhi hi eq_refl). destruct (Z.gtb_spec z hi); [lia|reflexivity].
      * destruct (validation_maximum self) as [hi|]; [|reflexivity].
        specialize (Hhi hi eq_refl). destruct (Z.gtb_spec z hi); [lia|reflexivity].
  - intros z lo -> -> Hlt. simpl.
    destruct (Z.ltb_spec z lo); [|lia]. simpl. eexists. split; reflexivity.
  - intros z hi -> -> Hlt.
    destruct (validation_minimum self) as [lo|]; simpl.
    + destruct (z <? lo)%Z; simpl; [eexists; split; reflexivity|].
      destruct (Z.gtb_spec z hi); [|lia]. eexists. split; reflexivity.
    + destruct (Z.gtb_spec z hi); [|lia]. eexists. split; reflexivity.
Qed.

(** C10.  On a date field, a non-empty value that is neither a string nor a
    [date] object (an integer, a list, a [datetime], ...) makes [strptime]
    raise [TypeError], which [validate] does not turn into the date-format
    validation error. *)
Theorem validate_date_type_error (self : CustomField) (value : pyvalue) :
  type self = TYPE_DATE -> value <> PJson JNull ->
  (forall s, value <> PJson (JStr s)) -> (forall d, value <> PDate d) ->
  validate self value = Raised TypeError
  /\ validate self value <> Invalid DateFormatInvalid.
Proof.
  intros Htype Hnone Hstr Hdate.
  assert (Hraise : validate self value = Raised TypeError).
  { unfold validate. rewrite Htype.
    destruct value as [[]| |]; simpl; try reflexivity.
    - contradiction.
    - destruct (Hstr s eq_refl).
    - destruct (Hdate d eq_refl). }
  split; [exact Hraise|]. rewrite Hraise. discriminate.
Qed.

(** On a date field, strings and [date] objects never make [validate] raise
    anything but the validation error. *)
Lemma validate_date_string_or_date (self : CustomField) (value : pyvalue) :
  type self = TYPE_DATE ->
  (exists s, value = PJson (JStr s)) \/ (exists d, value = PDate d) ->
  validate self value = Ok tt
  \/ validate self value = Invalid DateFormatInvalid
  \/ validate self value = Invalid RequiredFieldCannotBeEmpty.
Proof.
  intros Htype [[s ->] | [d ->]]; unfold validate; rewrite Htype; simpl.
  - destruct (String.eqb s ""); simpl.
    + destruct (required self); auto.
    + destruct (strptime_ymd s); auto.
  - auto.
Qed.

End ValidateFacts.

(** ** Multiple selection *)

Section MultiselectFacts.
Context `{PyLib}.

Lemma mapM_as_str_strings (l : list string) : mapM as_str (map JStr l) = Some l.
Proof.
  induction l as [|s l IH]; [reflexivity|].
  simpl. rewrite IH. reflexivity.
Qed.

Lemma forallb_hashable_strings (l : list string) : forallb hashable (map JStr l) = true.
Proof. induction l as [|s l IH]; [reflexivity | exact IH]. Qed.

Lemma forallb_in_choices_strings (cs l : list string) :
  forallb (fun e => in_choices e cs) (map JStr l)
  = forallb (fun s => existsb (String.eqb s) cs) l.
Proof.
  induction l as [|s l IH]; [reflexivity|].
  simpl. rewrite IH. reflexivity.
Qed.

(** On a multiple-selection field, a list of strings is valid exactly when
    each of them is a choice; otherwise the error names the values and the
    choices. *)
Lemma validate_multiselect_strings (self : CustomField) (cs l : list string) :
  type self = TYPE_MULTISELECT -> choices self = Some cs ->
  validate self (PJson (JArr (map JStr l)))
  = if forallb (fun s => existsb (String.eqb s) cs) l then Ok tt
    else Invalid (InvalidChoicesOf (join ", " l) (join ", " cs)).
Proof.
  intros Htype Hcs. unfold validate, py_set, issubset, join_value, join_choices.
  rewrite Htype, Hcs. cbn.
  rewrite forallb_hashable_strings. cbn.
  rewrite forallb_in_choices_strings, mapM_as_str_strings.
  destruct (forallb _ l); reflexivity.
Qed.

(** The order of the values and their repetition do not matter. *)
Lemma validate_multiselect_permutation (self : CustomField) (cs l1 l2 : list string) :
  type self = TYPE_MULTISELECT -> choices self = Some cs ->
  (forall s, In s l1 <-> In s l2) ->
  validate self (PJson (JArr (map JStr l1))) = Ok tt <->
  validate self (PJson (JArr (map JStr l2))) = Ok tt.
Proof.
  intros Htype Hcs Hsame.
  rewrite !(validate_multiselect_strings _ cs) by assumption.
  destruct (forallb _ l1) eqn:H1, (forallb _ l2) eqn:H2;
    [tauto | | | split; discriminate].
  - rewrite forallb_forall in H1.
    assert (forallb (fun s => existsb (String.eqb s) cs) l2 = true) as H2'.
    { apply forallb_forall. intros s Hs. apply H1, Hsame, Hs. }
    congruence.
  - rewrite forallb_forall in H2.
    assert (forallb (fun s => existsb (String.eqb s) cs) l1 = true) as H1'.
    { apply forallb_forall. intros s Hs. apply H2, Hsame, Hs. }
    congruence.
Qed.

Lemma mapM_as_str_non_string (items : list json) :
  Exists (fun item => as_str item = None) items -> mapM as_str items = None.
Proof.
  induction 1 as [item items Hitem | item items _ IH]; simpl.
  - rewrite Hitem. reflexivity.
  - rewrite IH. destruct (as_str item); reflexivity.
Qed.

Lemma forallb_in_choices_non_string (cs : list string) (items : list json) :
  Exists (fun item => as_str item = None) items ->
  forallb (fun e => in_choices e cs) items = false.
Proof.
  induction 1 as [item items Hitem | item items _ IH]; simpl.
  - destruct item; try discriminate; reflexivity.
  - rewrite IH. apply andb_false_r.
Qed.

(** A list with an item that is not a string never gets the validation
    error: the subset test fails on that item, and so does the [join] that
    builds the message. *)
Lemma validate_multiselect_non_string (self : CustomField) (cs : list string)
    (items : list json) :
  type self = TYPE_MULTISELECT -> choices self = Some cs ->
  Exists (fun item => as_str item = None) items ->
  validate self (PJson (JArr items)) = Raised TypeError.
Proof.
  intros Htype Hcs Hitem. unfold validate, py_set, issubset, join_value, join_choices.
  rewrite Htype, Hcs. cbn.
  destruct (forallb hashable items); [|reflexivity]. cbn.
  rewrite (forallb_in_choices_non_string cs items Hitem). cbn.
  rewrite (mapM_as_str_non_string items Hitem). reflexivity.
Qed.

(** C9 (the failing input).  A value with an item that is not a string and
    not a choice: building the message of the validation error joins the
    items, and [join] raises [TypeError] on the item that is not a string. *)
Theorem validate_multiselect_non_string_item :
  validate (multiselect_abc JNull) (PJson (JArr [JStr "a"; JInt 1])) = Raised TypeError
  /\ validate (multiselect_abc JNull) (PJson (JArr [JInt 1])) = Raised TypeError.
Proof. split; reflexivity. Qed.

End MultiselectFacts.

(** ** [clean] *)

Section CleanFacts.
Context `{PyLib}.

Lemma truthy_not_empty (j : json) : truthy j = true -> is_empty_value (PJson j) = false.
Proof.
  destruct j; simpl; try reflexivity; try discriminate.
  intros Hs. apply negb_true_iff in Hs. exact Hs.
Qed.

(** A select field whose truthy default passes [validate] has that default
    among its choices. *)
Lemma validate_select_default_ok (self : CustomField) :
  type self = TYPE_SELECT -> truthy (default self) = true ->
  validate self (PJson (default self)) = Ok tt ->
  exists cs, choices self = Some cs /\ in_choices (default self) cs = true.
Proof.
  intros Htype Htruthy. unfold validate.
  rewrite (truthy_not_empty _ Htruthy), Htype. simpl.
  destruct (choices self) as [cs|]; [|discriminate].
  destruct (in_choices (default self) cs) eqn:Hin; [|discriminate].
  intros _. exists cs. auto.
Qed.

Lemma default_value_not_text (self : CustomField) :
  type self <> TYPE_TEXT -> default_value self = PJson (default self).
Proof.
  intros Htype. unfold default_value. case_bool_decide; [contradiction | reflexivity].
Qed.

Ltac step_clean :=
  match goal with
  | |- context [raise_if ?c _] => destruct c eqn:?; cbn [raise_if bind]
  end.

(** C3 (as amended).  When a default is present, [clean] fails with an error
    on the attribute [default] exactly when [validate] fails on the value that
    [clean] hands to it: the default itself, or its [str] on a text field.
    That failure is then the error [clean] reports, and on every type but text
    the value handed over is the default. *)
Theorem clean_default_error (self : CustomField) :
  default self <> JNull ->
  ((exists e, clean self = Invalid e /\ error_attribute e = "default")
   <-> (exists e, validate self (default_value self) = Invalid e))
  /\ (forall e, validate self (default_value self) = Invalid e ->
        clean self = Invalid (InvalidDefaultValue e))
  /\ (type self <> TYPE_TEXT -> default_value self = PJson (default self)).
Proof.
  intros Hdefault.
  assert (Hnone : is_none (default self) = false).
  { destruct (default self); try reflexivity. contradiction. }
  split; [|split].
  - unfold clean. rewrite Hnone. cbn [negb].
    destruct (validate self (default_value self)) as [[]|err|x] eqn:Hvalidate; cbn [bind].
    + split; [|intros [e He]; discriminate].
      intros (e & Hclean & Hattr). exfalso. revert Hclean.
      repeat step_clean; try (intros [= <-]; discriminate Hattr).
      destruct (bool_decide (type self = TYPE_SELECT) && truthy (default self)) eqn:Hselect.
      * apply andb_true_iff in Hselect. destruct Hselect as [Htype Htruthy].
        apply bool_decide_eq_true in Htype.
        rewrite (default_value_not_text self) in Hvalidate by congruence.
        destruct (validate_select_default_ok self Htype Htruthy Hvalidate)
          as (cs & Hcs & Hin).
        unfold default_not_in_choices. rewrite Hcs, Hin. discriminate.
      * discriminate.
    + split.
      * intros _. exists err. reflexivity.
      * intros _. exists (InvalidDefaultValue err). split; reflexivity.
    + split; [intros (e & Hclean & _); discriminate | intros [e He]; discriminate].
  - intros e Hvalidate. unfold clean. rewrite Hnone, Hvalidate. reflexivity.
  - apply default_value_not_text.
Qed.

(** C2 (the failing input).  A select field without choices, be the list
    absent or empty, passes [clean]. *)
Theorem clean_accepts_select_without_choices :
  clean (select_choices None JNull) = Ok tt
  /\ clean (select_choices (Some []) JNull) = Ok tt.
Proof. split; reflexivity. Qed.

(** A select field with exactly one choice never passes [clean]. *)
Lemma clean_rejects_single_choice (self : CustomField) (c : string) :
  type self = TYPE_SELECT -> choices self = Some [c] ->
  exists e, clean self = Invalid e.
Proof.
  intros Htype Hcs. unfold clean.
  assert (Hv : forall value, exists r,
             validate self value = r /\ (r = Ok tt \/ exists e, r = Invalid e)).
  { intros value. eexists. split; [reflexivity|].
    unfold validate. rewrite Htype, Hcs. simpl.
    destruct (is_empty_value value); simpl.
    - destruct (required self); eauto.
    - destruct (value_in_choices value [c]); simpl; eauto. }
  destruct (Hv (default_value self)) as (r & Hr & Hcases). rewrite Hr, Htype, Hcs.
  destruct (negb (is_none (default self))).
  - destruct Hcases as [-> | [e ->]]; cbn [bind]; [|eauto].
    repeat step_clean; eauto; cbn in *; discriminate.
  - cbn [bind]. repeat step_clean; eauto; cbn in *; discriminate.
Qed.

End CleanFacts.

(** ** [to_form_field] *)

(** C4 (as amended).  Whenever [to_form_field] builds a field, which it does
    unless a selection field has no list of choices, the initial value of the
    field is the default when [set_initial] is set and empty otherwise,
    whatever the type and whether or not the default is among the choices. *)
Theorem to_form_field_initial (self : CustomField)
    (set_initial enforce_required for_csv_import : bool) :
  is_selection_type (type self) = false \/ choices self <> None ->
  exists field,
    to_form_field self set_initial enforce_required for_csv_import = Ok field
    /\ initial field = (if set_initial then default self else JNull).
Proof.
  intros Hchoices. unfold to_form_field.
  destruct (type self) eqn:Htype; cbn in Hchoices |- *;
    try (eexists; split; [reflexivity|]; reflexivity);
    try (destruct (nonempty (validation_regex self));
         eexists; split; reflexivity).
  all: destruct Hchoices as [Hsel | Hcs]; [discriminate|].
  all: destruct (choices self) as [cs|]; [|contradiction].
  all: destruct for_csv_import; cbn; eexists; (split; [reflexivity|]); cbn.
  all: destruct set_initial; cbn; [|reflexivity].
  all: destruct (in_choices (default self) cs); cbn; [|reflexivity].
  all: destruct (truthy (default self)); reflexivity.
Qed.

(** A selection field without a list of choices makes [to_form_field] raise
    [TypeError]. *)
Lemma to_form_field_without_choices (self : CustomField)
    (set_initial enforce_required for_csv_import : bool) :
  is_selection_type (type self) = true -> choices self = None ->
  to_form_field self set_initial enforce_required for_csv_import = Raised TypeError.
Proof.
  intros Hsel Hcs. unfold to_form_field. rewrite Hcs.
  destruct (type self); try discriminate; reflexivity.
Qed.

(** ** Data synchronisation *)

Section SyncFacts.

Implicit Types (objects instances : Table) (data : gmap string json) (db : Database).





(** The objects that [rename_object_data] selects have the old key: [pop]
    does not raise on them. *)
Lemma filter_isnull_false_has_key (key : string) objects (pk : nat) data :
  filter_isnull_false key objects !! pk = Some data -> is_Some (data !! key).
Proof.
  unfold filter_isnull_false. intros Hrow.
  apply map_lookup_filter_Some in Hrow. exact (proj2 Hrow).
Qed.









End SyncFacts.

Section SyncClaims.

Implicit Types (objects : Table) (data : gmap string json) (db : Database).



(** When [new_name] is already a key, its value is overwritten and the data
    has one key less. *)
Lemma move_key_collision (old_name new_name : string) data (v w : json) :
  data !! old_name = Some v -> data !! new_name = Some w -> old_name <> new_name ->
  move_key old_name new_name data !! new_name = Some v
  /\ S (size (move_key old_name new_name data)) = size data.
Proof.
  intros Hold Hnew Hne. unfold move_key. rewrite Hold. split.
  - apply lookup_insert_eq.
  - rewrite map_size_insert_Some by (rewrite lookup_delete_ne by assumption; eauto).
    rewrite map_size_delete_Some by eauto.
    assert (size data <> 0); [|lia].
    apply map_size_ne_0_lookup. eauto.
Qed.

(** Renaming a key to itself leaves the data as it is. *)
Lemma move_key_same (key : string) data : move_key key key data = data.
Proof.
  unfold move_key. destruct (data !! key) as [v|] eqn:Hkey; [|reflexivity].
  apply insert_delete_id, Hkey.
Qed.

End SyncClaims.

(** * Examples *)

(** ** The scenarios of the specification *)

Example text_anchored_scenario :
  validate text_anchored (PJson (JStr "ABC")) = Ok tt
  /\ validate text_anchored (PJson (JStr "abc")) = Invalid (ValueMustMatchRegex "^[A-Z]{3}$")
  /\ validate text_anchored (PJson (JStr "")) = Ok tt.
Proof. split_and!; vm_compute; reflexivity. Qed.

(** The pattern without anchors accepts a longer string, the anchored one
    does not; [re.fullmatch] would reject it for both. *)
Example text_prefix_scenario :
  validate text_unanchored (PJson (JStr "ABCD")) = Ok tt
  /\ validate text_anchored (PJson (JStr "ABCD")) = Invalid (ValueMustMatchRegex "^[A-Z]{3}$")
  /\ re_fullmatch (E := ValidationError) "[A-Z]{3}" "ABCD" = Ok false
  /\ re_search (E := ValidationError) "[A-Z]{3}" "xABC" = Ok true
  /\ validate text_unanchored (PJson (JStr "xABC")) = Invalid (ValueMustMatchRegex "[A-Z]{3}").
Proof. split_and!; vm_compute; reflexivity. Qed.

Example integer_scenario :
  validate integer_1_10 (PJson (JInt 0)) = Invalid (ValueMustBeAtLeast 1)
  /\ error_kind (ValueMustBeAtLeast 1) = OutOfRange
  /\ validate integer_1_10 (PJson (JInt 10)) = Ok tt
  /\ validate integer_1_10 (PJson (JInt 11)) = Invalid (ValueMustNotExceed 10)
  /\ validate integer_1_10 (PJson (JBool true)) = Invalid ValueMustBeInteger.
Proof. split_and!; vm_compute; reflexivity. Qed.

Example multiselect_scenario :
  validate (multiselect_abc JNull) (PJson (JArr [JStr "a"; JStr "c"])) = Ok tt
  /\ validate (multiselect_abc JNull) (PJson (JArr [JStr "a"; JStr "z"]))
     = Invalid (InvalidChoicesOf "a, z" "a, b, c")
  /\ error_kind (InvalidChoicesOf "a, z" "a, b, c") = InvalidChoiceSet.
Proof. split_and!; vm_compute; reflexivity. Qed.

Example date_scenario :
  validate date_field (PJson (JStr "2021-02-28")) = Ok tt
  /\ validate date_field (PJson (JStr "2021-02-29")) = Invalid DateFormatInvalid
  /\ validate date_field (PDate (Date 2021 2 28)) = Ok tt
  /\ validate date_field (PDatetime (Date 2021 2 28) (TimeOfDay 0 0 0 0)) = Raised TypeError.
Proof. split_and!; vm_compute; reflexivity. Qed.

Example rename_scenario :
  exists db' objects',
    rename_object_data (site_field JNull) "old" "new" sites_old_other = (db', None)
    /\ db' !! "dcim.site" = Some objects'
    /\ objects' !! 1%nat = Some ({[ "new" := JInt 1; "other" := JInt 2 ]} : gmap string json).
Proof. do 2 eexists. split_and!; [reflexivity | |]; vm_compute; reflexivity. Qed.

(** ** Inputs on which the theorems apply *)


Lemma clean_default_error_witness :
  default text_default_5 <> JNull
  /\ (((exists e, clean text_default_5 = Invalid e /\ error_attribute e = "default")
       <-> (exists e, validate text_default_5 (default_value text_default_5) = Invalid e))
      /\ (forall e, validate text_default_5 (default_value text_default_5) = Invalid e ->
            clean text_default_5 = Invalid (InvalidDefaultValue e))
      /\ (type text_default_5 <> TYPE_TEXT ->
            default_value text_default_5 = PJson (default text_default_5))).
Proof.
  split; [discriminate|].
  apply (clean_default_error text_default_5). discriminate.
Defined.

Lemma to_form_field_initial_witness :
  (is_selection_type (type select_ab_x) = false \/ choices select_ab_x <> None)
  /\ exists field,
       to_form_field select_ab_x true true false = Ok field
       /\ initial field = (if true then default select_ab_x else JNull).
Proof.
  split; [right; discriminate|].
  apply (to_form_field_initial select_ab_x true true false). right. discriminate.
Defined.

Lemma validate_text_prefix_match_witness :
  type text_unanchored = TYPE_TEXT /\ validation_regex text_unanchored <> "" /\ "ABCD" <> ""
  /\ ((validate text_unanchored (PJson (JStr "ABCD")) = Ok tt <->
         exists p j, re_compile (validation_regex text_unanchored) = Some p
                     /\ j <= String.length "ABCD" /\ re_spans p "ABCD" 0 j = true)
      /\ (forall p, re_compile (validation_regex text_unanchored) = Some p ->
            (forall j, j <= String.length "ABCD" -> re_spans p "ABCD" 0 j = false) ->
            exists e, validate text_unanchored (PJson (JStr "ABCD")) = Invalid e
                      /\ e = ValueMustMatchRegex (validation_regex text_unanchored)
                      /\ error_kind e = PatternMismatch)).
Proof.
  split; [reflexivity|]. split; [discriminate|]. split; [discriminate|].
  apply (validate_text_prefix_match text_unanchored "ABCD");
    [reflexivity | discriminate | discriminate].
Defined.

Lemma validate_empty_value_witness :
  (PJson (JStr "") = PJson JNull \/ PJson (JStr "") = PJson (JStr ""))
  /\ (validate text_required_star (PJson (JStr ""))
      = (if required text_required_star then Invalid RequiredFieldCannotBeEmpty else Ok tt)
      /\ error_kind RequiredFieldCannotBeEmpty = RequiredFieldEmpty
      /\ ((exists e, validate text_required_star (PJson (JStr "")) = Invalid e)
          <-> required text_required_star = true)).
Proof.
  split; [right; reflexivity|].
  apply (validate_empty_value text_required_star (PJson (JStr ""))). right. reflexivity.
Defined.


Lemma validate_integer_range_witness :
  type integer_1_10 = TYPE_INTEGER /\ is_empty_value (PJson (JInt 10)) = false
  /\ ((validate integer_1_10 (PJson (JInt 10)) = Ok tt <->
         exists z, PJson (JInt 10) = PJson (JInt z)
                   /\ (forall lo, validation_minimum integer_1_10 = Some lo -> (lo <= z)%Z)
                   /\ (forall hi, validation_maximum integer_1_10 = Some hi -> (z <= hi)%Z))
      /\ (forall z lo, PJson (JInt 10) = PJson (JInt z) ->
            validation_minimum integer_1_10 = Some lo -> (z < lo)%Z ->
            exists e, validate integer_1_10 (PJson (JInt 10)) = Invalid e
                      /\ error_kind e = OutOfRange)
      /\ (forall z hi, PJson (JInt 10) = PJson (JInt z) ->
            validation_maximum integer_1_10 = Some hi -> (hi < z)%Z ->
            exists e, validate integer_1_10 (PJson (JInt 10)) = Invalid e
                      /\ error_kind e = OutOfRange)).
Proof.
  split; [reflexivity|]. split; [reflexivity|].
  apply (validate_integer_range integer_1_10 (PJson (JInt 10))); reflexivity.
Defined.

Lemma validate_date_type_error_witness :
  type date_field = TYPE_DATE /\ PJson (JInt 5) <> PJson JNull
  /\ (forall s, PJson (JInt 5) <> PJson (JStr s)) /\ (forall d, PJson (JInt 5) <> PDate d)
  /\ (validate date_field (PJson (JInt 5)) = Raised TypeError
      /\ validate date_field (PJson (JInt 5)) <> Invalid DateFormatInvalid).
Proof.
  split; [reflexivity|]. split; [discriminate|].
  split; [intros s; discriminate|]. split; [intros d; discriminate|].
  apply (validate_date_type_error date_field (PJson (JInt 5)));
    [reflexivity | discriminate | intros s; discriminate | intros d; discriminate].
Defined.

(** ** Inputs on which the specification's sentences fail *)


(** C3, as the specification states it: on a text field the default [5] is
    rejected by [validate] and accepted by [clean], which validates ["5"]. *)
Lemma clean_accepts_default_validate_rejects :
  default text_default_5 <> JNull
  /\ validate text_default_5 (PJson (default text_default_5)) = Invalid ValueMustBeString
  /\ clean text_default_5 = Ok tt
  /\ ~ ((exists e, clean text_default_5 = Invalid e /\ error_attribute e = "default")
        <-> (exists e, validate text_default_5 (PJson (default text_default_5)) = Invalid e)).
Proof.
  split_and!; [discriminate | reflexivity | reflexivity |].
  intros [_ Hback].
  destruct Hback as (e & Hclean & _); [eexists; reflexivity|].
  discriminate Hclean.
Qed.

(** C4, as the specification states it: with [set_initial], a select field
    whose default is not among its choices, and a multiple-selection field
    whose default is a list of choices, both get the default as initial
    value, although the default is not a member of the choices. *)
Lemma to_form_field_initial_outside_choices :
  (exists field,
     to_form_field select_ab_x true true false = Ok field
     /\ initial field = JStr "x"
     /\ in_choices (default select_ab_x) ["a"; "b"] = false
     /\ initial field <> JNull)
  /\ (exists field,
        to_form_field multiselect_default_a true true false = Ok field
        /\ initial field = JArr [JStr "a"]
        /\ in_choices (default multiselect_default_a) ["a"; "b"; "c"] = false
        /\ initial field <> JNull
        /\ clean multiselect_default_a = Ok tt).
Proof.
  split; eexists; (split; [reflexivity|]); split_and!; try reflexivity; discriminate.
Qed.

(** C5, as the specification states it: on the empty string the regex is not
    consulted.  The optional field with pattern [a] accepts it although no
    prefix matches; the required field with pattern [a*] rejects it although
    the empty prefix matches. *)
Lemma validate_text_empty_string_ignores_regex :
  (validate text_optional_a (PJson (JStr "")) = Ok tt
   /\ ~ exists p j, re_compile (validation_regex text_optional_a) = Some p
                    /\ j <= String.length "" /\ re_spans p "" 0 j = true)
  /\ (validate text_required_star (PJson (JStr "")) = Invalid RequiredFieldCannotBeEmpty
      /\ exists p j, re_compile (validation_regex text_required_star) = Some p
                     /\ j <= String.length "" /\ re_spans p "" 0 j = true).
Proof.
  split; split.
  - reflexivity.
  - intros (p & j & Hp & Hj & Hspan). vm_compute in Hp. injection Hp as <-.
    assert (j = 0) as -> by (simpl in Hj; lia). vm_compute in Hspan. discriminate.
  - reflexivity.
  - eexists. exists 0. split_and!; [vm_compute; reflexivity | simpl; lia | vm_compute; reflexivity].
Qed.


(** * Further properties *)

(** ** [validate], type by type *)

Section ValidateByType.
Context `{PyLib}.

Lemma validate_nonempty_boolean (self : CustomField) (value : pyvalue) :
  type self = TYPE_BOOLEAN -> is_empty_value value = false ->
  validate self value = raise_if (negb (is_boolean_like value)) ValueMustBeTrueOrFalse.
Proof.
  intros Htype Hvalue. unfold validate. rewrite Hvalue, Htype. simpl.
  destruct (is_boolean_like value); reflexivity.
Qed.

Lemma validate_nonempty_url (self : CustomField) (value : pyvalue) :
  type self = TYPE_URL -> is_empty_value value = false -> validate self value = Ok tt.
Proof. intros Htype Hvalue. unfold validate. rewrite Hvalue, Htype. reflexivity. Qed.

Lemma validate_nonempty_select (self : CustomField) (value : pyvalue) :
  type self = TYPE_SELECT -> is_empty_value value = false ->
  validate self value =
    match choices self with
    | None => Raised TypeError
    | Some cs => raise_if (negb (value_in_choices value cs)) (InvalidChoiceOf value (join ", " cs))
    end.
Proof.
  intros Htype Hvalue. unfold validate. rewrite Hvalue, Htype. simpl.
  destruct (choices self) as [cs|]; [|reflexivity].
  destruct (value_in_choices value cs); reflexivity.
Qed.

Lemma validate_nonempty_multiselect (self : CustomField) (value : pyvalue) :
  type self = TYPE_MULTISELECT -> is_empty_value value = false ->
  validate self value =
    (do elements <- py_set value;
     do subset <- issubset elements (choices self);
     if negb subset then
       do values <- join_value value;
       do available <- join_choices (choices self);
       Invalid (InvalidChoicesOf values available)
     else Ok tt).
Proof. intros Htype Hvalue. unfold validate. rewrite Hvalue, Htype. reflexivity. Qed.

Lemma existsb_eqb_In (s : string) (cs : list string) :
  existsb (String.eqb s) cs = true <-> In s cs.
Proof.
  rewrite existsb_exists. split.
  - intros (c & Hin & Heq). apply String.eqb_eq in Heq. subst. exact Hin.
  - intros Hin. exists s. split; [exact Hin | apply String.eqb_refl].
Qed.

(** X1.  On a select field with a list of choices, a non-empty value is valid
    exactly when it is a string equal to one of the choices (the comparison is
    exact, case included); any other value gets the invalid-choice error, and
    nothing else is ever raised. *)
Theorem validate_select_membership (self : CustomField) (cs : list string) (value : pyvalue) :
  type self = TYPE_SELECT -> choices self = Some cs -> is_empty_value value = false ->
  (validate self value = Ok tt <-> exists s, value = PJson (JStr s) /\ In s cs)
  /\ (validate self value = Ok tt
      \/ validate self value = Invalid (InvalidChoiceOf value (join ", " cs))).
Proof.
  intros Htype Hcs Hvalue.
  rewrite (validate_nonempty_select _ _ Htype Hvalue), Hcs.
  destruct (value_in_choices value cs) eqn:Hin; simpl.
  - split; [|left; reflexivity]. split; [|reflexivity]. intros _.
    destruct value as [[]| |]; try discriminate.
    exists s. split; [reflexivity|]. apply existsb_eqb_In. exact Hin.
  - split; [|right; reflexivity]. split; [discriminate|].
    intros (s & -> & Hs). apply existsb_eqb_In in Hs. simpl in Hin. congruence.
Qed.

(** X2.  On a boolean field, [True] and [False] are valid, an integer is valid
    exactly when it is 0 or 1, and a non-empty string or a list is rejected
    with the true-or-false error: the text "true" is not a boolean. *)
Theorem validate_boolean_values (self : CustomField) :
  type self = TYPE_BOOLEAN ->
  (forall b, validate self (PJson (JBool b)) = Ok tt)
  /\ (forall z, validate self (PJson (JInt z)) = Ok tt <-> z = 0%Z \/ z = 1%Z)
  /\ (forall s, s <> "" -> validate self (PJson (JStr s)) = Invalid ValueMustBeTrueOrFalse)
  /\ (forall items, validate self (PJson (JArr items)) = Invalid ValueMustBeTrueOrFalse)
  /\ (forall d, validate self (PDate d) = Invalid ValueMustBeTrueOrFalse).
Proof.
  intros Htype. split_and!.
  - intros b. rewrite validate_nonempty_boolean by auto. reflexivity.
  - intros z. rewrite validate_nonempty_boolean by auto. simpl.
    destruct (Z.eqb_spec z 1) as [-> | H1]; simpl; [split; auto|].
    destruct (Z.eqb_spec z 0) as [-> | H0]; simpl; [split; auto|].
    split; [discriminate | intros [? | ?]; contradiction].
  - intros s Hs. rewrite validate_nonempty_boolean; [reflexivity | assumption |].
    simpl. apply String.eqb_neq. exact Hs.
  - intros items. rewrite validate_nonempty_boolean by auto. reflexivity.
  - intros d. rewrite validate_nonempty_boolean by auto. reflexivity.
Qed.

(** X3.  On a URL field [validate] checks nothing: every non-empty value
    passes, whatever its type and even when a validation regex is set. *)
Theorem validate_url_unchecked (self : CustomField) (value : pyvalue) :
  type self = TYPE_URL -> is_empty_value value = false -> validate self value = Ok tt.
Proof. apply validate_nonempty_url. Qed.

(** X4.  On a text field the type is checked before the pattern: a non-empty
    value that is not a string gets the must-be-a-string error whatever the
    regex, and without a regex every non-empty string is valid. *)
Theorem validate_text_type_check (self : CustomField) :
  type self = TYPE_TEXT ->
  (forall value, is_empty_value value = false -> (forall s, value <> PJson (JStr s)) ->
     validate self value = Invalid ValueMustBeString)
  /\ (validation_regex self = "" ->
      forall s, s <> "" -> validate self (PJson (JStr s)) = Ok tt).
Proof.
  intros Htype. split.
  - intros value Hvalue Hstr. rewrite (validate_nonempty_text _ _ Htype Hvalue).
    destruct value as [[]| |]; try reflexivity. destruct (Hstr s eq_refl).
  - intros Hregex s Hs. rewrite validate_nonempty_text; [|assumption|].
    + rewrite Hregex. reflexivity.
    + simpl. apply String.eqb_neq. exact Hs.
Qed.


(** X6.  The empty list is not an empty value: a required multiple-selection
    field accepts the empty list, while it rejects [None] and the empty
    string. *)
Theorem validate_multiselect_required_empty_list (self : CustomField) (cs : list string) :
  type self = TYPE_MULTISELECT -> choices self = Some cs -> required self = true ->
  validate self (PJson (JArr [])) = Ok tt
  /\ validate self (PJson JNull) = Invalid RequiredFieldCannotBeEmpty
  /\ validate self (PJson (JStr "")) = Invalid RequiredFieldCannotBeEmpty.
Proof.
  intros Htype Hcs Hreq. split_and!.
  - rewrite validate_nonempty_multiselect by auto.
    unfold py_set, issubset. rewrite Hcs. reflexivity.
  - unfold validate. simpl. rewrite Hreq. reflexivity.
  - unfold validate. simpl. rewrite Hreq. reflexivity.
Qed.

(** X7.  On integer, boolean and URL fields, and on text fields whose regex is
    unset or compiles, [validate] either returns or raises [ValidationError]:
    no value makes it raise anything else. *)
Theorem validate_no_untyped_error (self : CustomField) (value : pyvalue) (x : exn) :
  type self = TYPE_INTEGER \/ type self = TYPE_BOOLEAN \/ type self = TYPE_URL
  \/ (type self = TYPE_TEXT
      /\ (validation_regex self = "" \/ is_Some (re_compile (validation_regex self)))) ->
  validate self value <> Raised x.
Proof.
  intros Htype.
  destruct (is_empty_value value) eqn:Hvalue.
  { unfold validate. rewrite Hvalue. simpl. destruct (required self); discriminate. }
  destruct Htype as [Htype | [Htype | [Htype | [Htype Hregex]]]].
  - rewrite (validate_nonempty_integer _ _ Htype Hvalue).
    destruct value as [[]| |]; try discriminate.
    destruct (validation_minimum self) as [lo|]; simpl.
    + destruct (z <? lo)%Z; simpl; [discriminate|].
      destruct (validation_maximum self) as [hi|]; [|discriminate].
      destruct (z >? hi)%Z; discriminate.
    + destruct (validation_maximum self) as [hi|]; [|discriminate].
      destruct (z >? hi)%Z; discriminate.
  - rewrite (validate_nonempty_boolean _ _ Htype Hvalue).
    destruct (is_boolean_like value); discriminate.
  - rewrite (validate_nonempty_url _ _ Htype Hvalue). discriminate.
  - rewrite (validate_nonempty_text _ _ Htype Hvalue).
    destruct value as [[]| |]; try discriminate.
    destruct Hregex as [-> | [p Hp]]; [discriminate|].
    destruct (nonempty (validation_regex self)); [|discriminate].
    unfold re_match. rewrite Hp. cbn [bind].
    destruct (existsb _ _); discriminate.
Qed.


End ValidateByType.

Lemma validate_select_membership_witness :
  type select_ab_x = TYPE_SELECT /\ choices select_ab_x = Some ["a"; "b"]
  /\ is_empty_value (PJson (JStr "A")) = false
  /\ ((validate select_ab_x (PJson (JStr "A")) = Ok tt
       <-> exists s, PJson (JStr "A") = PJson (JStr s) /\ In s ["a"; "b"])
      /\ (validate select_ab_x (PJson (JStr "A")) = Ok tt
          \/ validate select_ab_x (PJson (JStr "A"))
             = Invalid (InvalidChoiceOf (PJson (JStr "A")) (join ", " ["a"; "b"])))).
Proof.
  split; [reflexivity|]. split; [reflexivity|]. split; [reflexivity|].
  apply (validate_select_membership select_ab_x ["a"; "b"] (PJson (JStr "A"))); reflexivity.
Defined.

Lemma validate_boolean_values_witness :
  type (make_field TYPE_BOOLEAN "active" true JNull None None "" None []) = TYPE_BOOLEAN
  /\ validate (make_field TYPE_BOOLEAN "active" true JNull None None "" None [])
       (PJson (JStr "true")) = Invalid ValueMustBeTrueOrFalse.
Proof.
  split; [reflexivity|].
  apply (validate_boolean_values
           (make_field TYPE_BOOLEAN "active" true JNull None None "" None []) eq_refl).
  discriminate.
Defined.

Lemma validate_url_unchecked_witness :
  type (make_field TYPE_URL "link" true JNull None None "^https://" None []) = TYPE_URL
  /\ is_empty_value (PJson (JInt 7)) = false
  /\ validate (make_field TYPE_URL "link" true JNull None None "^https://" None [])
       (PJson (JInt 7)) = Ok tt.
Proof.
  split; [reflexivity|]. split; [reflexivity|].
  apply (validate_url_unchecked
           (make_field TYPE_URL "link" true JNull None None "^https://" None [])
           (PJson (JInt 7))); reflexivity.
Defined.

Lemma validate_text_type_check_witness :
  type text_anchored = TYPE_TEXT
  /\ validate text_anchored (PJson (JInt 5)) = Invalid ValueMustBeString.
Proof.
  split; [reflexivity|].
  apply (validate_text_type_check text_anchored eq_refl); [reflexivity|].
  intros s. discriminate.
Defined.


Lemma validate_multiselect_required_empty_list_witness :
  type (make_field TYPE_MULTISELECT "tags" true JNull None None "" (Some ["a"; "b"]) [])
  = TYPE_MULTISELECT
  /\ validate (make_field TYPE_MULTISELECT "tags" true JNull None None "" (Some ["a"; "b"]) [])
       (PJson (JArr [])) = Ok tt.
Proof.
  split; [reflexivity|].
  apply (validate_multiselect_required_empty_list
           (make_field TYPE_MULTISELECT "tags" true JNull None None "" (Some ["a"; "b"]) [])
           ["a"; "b"]); reflexivity.
Defined.

Lemma validate_no_untyped_error_witness :
  (type integer_1_10 = TYPE_INTEGER \/ type integer_1_10 = TYPE_BOOLEAN
   \/ type integer_1_10 = TYPE_URL
   \/ (type integer_1_10 = TYPE_TEXT
       /\ (validation_regex integer_1_10 = ""
           \/ is_Some (re_compile (validation_regex integer_1_10)))))
  /\ validate integer_1_10 (PJson (JArr [JObj []])) <> Raised TypeError.
Proof.
  split; [left; reflexivity|].
  apply (validate_no_untyped_error integer_1_10 (PJson (JArr [JObj []])) TypeError).
  left. reflexivity.
Defined.



(** ** [clean], check by check *)

Section CleanChecks.
Context `{PyLib}.

Ltac split_check :=
  match goal with
  | |- context [raise_if ?c _] => destruct c eqn:?; cbn [raise_if bind]
  end.

Ltac split_check_in H :=
  match type of H with
  | context [raise_if ?c _] => destruct c eqn:?; cbn [raise_if bind] in H; try discriminate H
  end.

Ltac bool_facts :=
  repeat match goal with
    | H : _ && _ = true |- _ => apply andb_true_iff in H; destruct H
    | H : _ || _ = false |- _ => apply orb_false_iff in H; destruct H
    | H : negb _ = true |- _ => apply negb_true_iff in H
    | H : negb _ = false |- _ => apply negb_false_iff in H
    | H : bool_decide _ = true |- _ => apply bool_decide_eq_true in H
    | H : bool_decide _ = false |- _ => apply bool_decide_eq_false in H
    | H : nonempty _ = true |- _ => apply nonempty_spec in H
    end.

Lemma nonempty_false (s : string) : nonempty s = false <-> s = "".
Proof.
  unfold nonempty. rewrite negb_false_iff. apply String.eqb_eq.
Qed.

Lemma choices_set_length (cs : option (list string)) :
  choices_set cs = true -> forall l, cs = Some l -> l <> [].
Proof. intros Hset l ->. destruct l; [discriminate | discriminate]. Qed.

(** What is left of [clean] once the default has passed. *)
Lemma clean_without_default (self : CustomField) :
  default self = JNull ->
  clean self =
    (raise_if (bool_decide (validation_minimum self <> None)
               && negb (bool_decide (type self = TYPE_INTEGER))) MinimumOnNonNumeric ;;
     raise_if (bool_decide (validation_maximum self <> None)
               && negb (bool_decide (type self = TYPE_INTEGER))) MaximumOnNonNumeric ;;
     raise_if (nonempty (validation_regex self)
               && negb (bool_decide (type self = TYPE_TEXT) || bool_decide (type self = TYPE_URL)))
              RegexOnUnsupportedType ;;
     raise_if (choices_set (choices self)
               && negb (bool_decide (type self = TYPE_SELECT)
                        || bool_decide (type self = TYPE_MULTISELECT)))
              ChoicesOnNonSelection ;;
     raise_if (bool_decide (type self = TYPE_SELECT) && choices_set (choices self)
               && (length (from_option id [] (choices self)) <? 2)%nat)
              TooFewChoices).
Proof.
  intros Hdefault. unfold clean. rewrite Hdefault. cbn [is_none negb bind truthy].
  rewrite andb_false_r.
  repeat split_check; reflexivity.
Qed.

(** The rules that hold of a definition once [clean] has accepted it. *)
Lemma clean_ok_rules (self : CustomField) :
  clean self = Ok tt ->
  (validation_minimum self <> None -> type self = TYPE_INTEGER)
  /\ (validation_maximum self <> None -> type self = TYPE_INTEGER)
  /\ (validation_regex self <> "" -> type self = TYPE_TEXT \/ type self = TYPE_URL)
  /\ (forall cs, choices self = Some cs -> cs <> [] ->
        type self = TYPE_SELECT \/ type self = TYPE_MULTISELECT)
  /\ (forall cs, type self = TYPE_SELECT -> choices self = Some cs -> cs <> [] ->
        2 <= length cs)
  /\ (default self <> JNull -> validate self (default_value self) = Ok tt)
  /\ (type self = TYPE_SELECT -> truthy (default self) = true ->
        exists cs, choices self = Some cs /\ in_choices (default self) cs = true).
Proof.
  intros Hclean. unfold clean in Hclean.
  assert (Hdefault : default self <> JNull -> validate self (default_value self) = Ok tt).
  { intros Hne. destruct (default self) eqn:Hd; try contradiction;
      cbn [is_none negb] in Hclean;
      destruct (validate self (default_value self)) as [[]| |]; try reflexivity;
      discriminate Hclean. }
  assert (Hrest :
    (raise_if (bool_decide (validation_minimum self <> None)
               && negb (bool_decide (type self = TYPE_INTEGER))) MinimumOnNonNumeric ;;
     raise_if (bool_decide (validation_maximum self <> None)
               && negb (bool_decide (type self = TYPE_INTEGER))) MaximumOnNonNumeric ;;
     raise_if (nonempty (validation_regex self)
               && negb (bool_decide (type self = TYPE_TEXT) || bool_decide (type self = TYPE_URL)))
              RegexOnUnsupportedType ;;
     raise_if (choices_set (choices self)
               && negb (bool_decide (type self = TYPE_SELECT)
                        || bool_decide (type self = TYPE_MULTISELECT)))
              ChoicesOnNonSelection ;;
     raise_if (bool_decide (type self = TYPE_SELECT) && choices_set (choices self)
               && (length (from_option id [] (choices self)) <? 2)%nat)
              TooFewChoices ;;
     (if bool_decide (type self = TYPE_SELECT) && truthy (default self) then
        do missing <- default_not_in_choices self;
        raise_if missing DefaultNotAChoice
      else Ok tt)) = (Ok tt : result CleanError unit)).
  { destruct (negb (is_none (default self))); cbn [bind] in Hclean; [|exact Hclean].
    destruct (validate self (default_value self)) as [[]| |]; cbn [bind] in Hclean;
      [exact Hclean | discriminate | discriminate]. }
  clear Hclean.
  split_check_in Hrest. split_check_in Hrest. split_check_in Hrest.
  split_check_in Hrest. split_check_in Hrest.
  rename Heqb into Hmin, Heqb0 into Hmax, Heqb1 into Hregex, Heqb2 into Hchoices,
    Heqb3 into Hfew.
  split_and!.
  - intros Hset. apply andb_false_iff in Hmin. destruct Hmin as [Hmin | Hmin]; bool_facts;
      [contradiction | exact Hmin].
  - intros Hset. apply andb_false_iff in Hmax. destruct Hmax as [Hmax | Hmax]; bool_facts;
      [contradiction | exact Hmax].
  - intros Hset. apply andb_false_iff in Hregex. destruct Hregex as [Hregex | Hregex].
    + apply nonempty_false in Hregex. contradiction.
    + apply negb_false_iff, orb_true_iff in Hregex.
      destruct Hregex as [Ht | Ht]; apply bool_decide_eq_true in Ht; auto.
  - intros cs Hcs Hne. apply andb_false_iff in Hchoices.
    destruct Hchoices as [Hc | Hc].
    + rewrite Hcs in Hc. destruct cs; [contradiction | discriminate].
    + apply negb_false_iff, orb_true_iff in Hc.
      destruct Hc as [Ht | Ht]; apply bool_decide_eq_true in Ht; auto.
  - intros cs Htype Hcs Hne. rewrite Hcs in Hfew. simpl in Hfew.
    rewrite bool_decide_eq_true_2 in Hfew by exact Htype.
    destruct cs as [|c0 cs]; [contradiction|]. simpl in Hfew.
    destruct cs as [|c1 cs]; [discriminate | simpl; lia].
  - exact Hdefault.
  - intros Htype Htruthy.
    rewrite bool_decide_eq_true_2, Htruthy in Hrest by exact Htype. cbn [andb] in Hrest.
    unfold default_not_in_choices in Hrest.
    destruct (choices self) as [cs|]; [|discriminate].
    cbn [bind] in Hrest. exists cs. split; [reflexivity|].
    destruct (in_choices (default self) cs); [reflexivity | discriminate].
Qed.

(** X9.  A definition that [clean] accepts satisfies every rule [clean]
    checks: bounds only on integer fields, a regex only on text and URL
    fields, choices only on selection fields, at least two choices on a select
    field that has any, a default (if present) that [validate] accepts in the
    form [clean] hands over, and on a select field a truthy default that is one
    of the choices. *)
Theorem clean_ok_invariants (self : CustomField) :
  clean self = Ok tt ->
  (validation_minimum self <> None -> type self = TYPE_INTEGER)
  /\ (validation_maximum self <> None -> type self = TYPE_INTEGER)
  /\ (validation_regex self <> "" -> type self = TYPE_TEXT \/ type self = TYPE_URL)
  /\ (forall cs, choices self = Some cs -> cs <> [] ->
        type self = TYPE_SELECT \/ type self = TYPE_MULTISELECT)
  /\ (forall cs, type self = TYPE_SELECT -> choices self = Some cs -> cs <> [] ->
        2 <= length cs)
  /\ (default self <> JNull -> validate self (default_value self) = Ok tt)
  /\ (type self = TYPE_SELECT -> truthy (default self) = true ->
        exists cs, choices self = Some cs /\ in_choices (default self) cs = true).
Proof. exact (clean_ok_rules self). Qed.

(** X10.  Without a default, [clean] never raises anything but a validation
    error, and it accepts the definition exactly when the five rules on bounds,
    regex and choices hold. *)
Theorem clean_without_default_iff (self : CustomField) :
  default self = JNull ->
  (clean self = Ok tt <->
     (validation_minimum self <> None -> type self = TYPE_INTEGER)
     /\ (validation_maximum self <> None -> type self = TYPE_INTEGER)
     /\ (validation_regex self <> "" -> type self = TYPE_TEXT \/ type self = TYPE_URL)
     /\ (forall cs, choices self = Some cs -> cs <> [] ->
           type self = TYPE_SELECT \/ type self = TYPE_MULTISELECT)
     /\ (forall cs, type self = TYPE_SELECT -> choices self = Some cs -> cs <> [] ->
           2 <= length cs))
  /\ (forall x, clean self <> Raised x).
Proof.
  intros Hdefault. split.
  - split.
    + intros Hclean.
      destruct (clean_ok_rules self Hclean) as (I1 & I2 & I3 & I4 & I5 & _).
      auto.
    + intros (I1 & I2 & I3 & I4 & I5).
      rewrite (clean_without_default self Hdefault).
      repeat split_check; try reflexivity; exfalso; bool_facts.
      * apply I1 in H0. contradiction.
      * apply I2 in H0. contradiction.
      * apply I3 in H0. destruct H0; contradiction.
      * destruct (choices self) as [[|c cs]|] eqn:Hcs; try discriminate.
        destruct (I4 (c :: cs) eq_refl) as [? | ?]; [discriminate | contradiction ..].
      * destruct (choices self) as [[|c cs]|] eqn:Hcs; try discriminate.
        specialize (I5 (c :: cs) H0 eq_refl). simpl in *.
        apply Nat.ltb_lt in H1. assert (2 <= S (length cs)) by (apply I5; discriminate). lia.
  - intros x. rewrite (clean_without_default self Hdefault).
    repeat split_check; discriminate.
Qed.

(** X11.  The last check of [clean], a select default that is not among the
    choices, never fires: such a default has already failed [validate] in the
    first check, so [clean] never reports that error. *)
Theorem clean_default_not_a_choice_unreachable (self : CustomField) :
  clean self <> Invalid DefaultNotAChoice.
Proof.
  unfold clean.
  destruct (is_none (default self)) eqn:Hnone; cbn [negb bind].
  - assert (Htruthy : truthy (default self) = false).
    { destruct (default self); try discriminate. reflexivity. }
    rewrite Htruthy, andb_false_r.
    repeat split_check; discriminate.
  - destruct (validate self (default_value self)) as [[]|err|x] eqn:Hvalidate; cbn [bind];
      [|discriminate|discriminate].
    repeat split_check; try discriminate.
    destruct (bool_decide (type self = TYPE_SELECT) && truthy (default self)) eqn:Hselect;
      [|discriminate].
    apply andb_true_iff in Hselect. destruct Hselect as [Htype Htruthy].
    apply bool_decide_eq_true in Htype.
    rewrite (default_value_not_text self) in Hvalidate by congruence.
    destruct (validate_select_default_ok self Htype Htruthy Hvalidate) as (cs & Hcs & Hin).
    unfold default_not_in_choices. rewrite Hcs, Hin. discriminate.
Qed.


(** X13.  A select field with exactly one choice is always rejected, without
    any other exception; when nothing else is wrong with the definition the
    error is the too-few-choices error on the attribute [choices]. *)
Theorem clean_single_choice (self : CustomField) (c : string) :
  type self = TYPE_SELECT -> choices self = Some [c] ->
  (exists e, clean self = Invalid e)
  /\ (default self = JNull -> validation_minimum self = None ->
      validation_maximum self = None -> validation_regex self = "" ->
      clean self = Invalid TooFewChoices /\ error_attribute TooFewChoices = "choices").
Proof.
  intros Htype Hcs. split; [exact (clean_rejects_single_choice self c Htype Hcs)|].
  intros Hdefault Hmin Hmax Hregex. split; [|reflexivity].
  rewrite (clean_without_default self Hdefault), Hmin, Hmax, Hregex, Htype, Hcs.
  reflexivity.
Qed.

End CleanChecks.

Lemma clean_ok_invariants_witness :
  clean select_ab_x <> Ok tt
  /\ clean (select_choices (Some ["a"; "b"]) (JStr "a")) = Ok tt
  /\ exists cs, choices (select_choices (Some ["a"; "b"]) (JStr "a")) = Some cs
                /\ in_choices (default (select_choices (Some ["a"; "b"]) (JStr "a"))) cs = true.
Proof.
  split; [discriminate|]. split; [reflexivity|].
  apply (clean_ok_invariants (select_choices (Some ["a"; "b"]) (JStr "a")) eq_refl);
    reflexivity.
Defined.

Lemma clean_without_default_iff_witness :
  default integer_1_10 = JNull
  /\ clean integer_1_10 = Ok tt
  /\ forall x, clean integer_1_10 <> Raised x.
Proof.
  split; [reflexivity|].
  destruct (clean_without_default_iff integer_1_10 eq_refl) as [Hiff Hraise].
  split; [reflexivity | exact Hraise].
Defined.


Lemma clean_single_choice_witness :
  type (select_choices (Some ["only"]) JNull) = TYPE_SELECT
  /\ choices (select_choices (Some ["only"]) JNull) = Some ["only"]
  /\ exists e, clean (select_choices (Some ["only"]) JNull) = Invalid e.
Proof.
  split; [reflexivity|]. split; [reflexivity|].
  apply (clean_single_choice (select_choices (Some ["only"]) JNull) "only"); reflexivity.
Defined.

(** ** [to_form_field] and [__str__] *)

Lemma to_form_field_selection (self : CustomField) (cs : list string)
    (set_initial enforce_required for_csv_import : bool) :
  is_selection_type (type self) = true -> choices self = Some cs ->
  exists field,
    to_form_field self set_initial enforce_required for_csv_import = Ok field
    /\ field_choices field
       = (if negb (enforce_required && required self) || negb (in_choices (default self) cs)
          then add_blank_choice (map (fun c => (Some c, c)) cs)
          else map (fun c => (Some c, c)) cs)
    /\ field_class field
       = (if for_csv_import then CSVChoiceField
          else if bool_decide (type self = TYPE_SELECT) then ChoiceField
               else MultipleChoiceField).
Proof.
  intros Hsel Hcs. unfold to_form_field. rewrite Hcs.
  destruct (type self); try discriminate; cbn.
  all: destruct for_csv_import; cbn; eexists; (split; [reflexivity|]); cbn.
  all: split; [|reflexivity].
  all: destruct (default self) as [| | | |s| |]; cbn;
    try destruct (existsb (String.eqb s) cs); cbn;
    destruct enforce_required, (required self); reflexivity.
Qed.

(** X14.  Whatever the type, the field that [to_form_field] builds is required
    exactly when the definition is required and [enforce_required] is set; it
    points back to the definition, its label is the definition's [__str__] and
    its help text is the description. *)
Theorem to_form_field_required_and_label (self : CustomField)
    (set_initial enforce_required for_csv_import : bool) (field : FormField) :
  to_form_field self set_initial enforce_required for_csv_import = Ok field ->
  field_required field = enforce_required && required self
  /\ model field = Some self
  /\ field_label field = CustomField_str self
  /\ help_text field = description self.
Proof.
  unfold to_form_field.
  assert (Hhelp : (if nonempty (description self) then description self else "")
                  = description self).
  { destruct (nonempty (description self)) eqn:Hd; [reflexivity|].
    unfold nonempty in Hd. apply negb_false_iff, String.eqb_eq in Hd. congruence. }
  destruct (type self); cbn;
    try destruct (choices self); cbn;
    try destruct for_csv_import; cbn;
    try destruct (nonempty (validation_regex self)); cbn;
    intros [= <-]; cbn; rewrite ?Hhelp;
    destruct enforce_required; auto.
Qed.

Lemma to_form_field_required_and_label_witness :
  to_form_field integer_1_10 true false false
  = Ok (finish_field integer_1_10
          (with_bounds (Some 1%Z) (Some 10%Z) (new_field IntegerField false JNull)))
  /\ field_required
       (finish_field integer_1_10
          (with_bounds (Some 1%Z) (Some 10%Z) (new_field IntegerField false JNull)))
     = false && required integer_1_10
  /\ field_label
       (finish_field integer_1_10
          (with_bounds (Some 1%Z) (Some 10%Z) (new_field IntegerField false JNull)))
     = "Units".
Proof.
  split; [reflexivity|].
  destruct (to_form_field_required_and_label integer_1_10 true false false _ eq_refl)
    as (Hreq & _ & Hlabel & _).
  split; [exact Hreq | exact Hlabel].
Defined.

(** X15.  [for_csv_import] matters to selection fields only: for every other
    type the field built is the same with and without it, and for a selection
    field it changes the class of the field and nothing else that the form
    shows (choices, initial value, required flag). *)
Theorem to_form_field_csv_import (self : CustomField) (set_initial enforce_required : bool) :
  (is_selection_type (type self) = false ->
   to_form_field self set_initial enforce_required true
   = to_form_field self set_initial enforce_required false)
  /\ (forall f1 f2,
        is_selection_type (type self) = true ->
        to_form_field self set_initial enforce_required true = Ok f1 ->
        to_form_field self set_initial enforce_required false = Ok f2 ->
        field_class f1 = CSVChoiceField
        /\ field_class f2 <> CSVChoiceField
        /\ field_choices f1 = field_choices f2
        /\ initial f1 = initial f2
        /\ field_required f1 = field_required f2
        /\ widget f1 = widget f2).
Proof.
  split.
  - intros Hsel. unfold to_form_field. destruct (type self); try discriminate; reflexivity.
  - intros f1 f2 Hsel. unfold to_form_field.
    destruct (type self); try discriminate; cbn;
      (destruct (choices self); cbn; [|discriminate]);
      intros [= <-] [= <-]; cbn; split_and!; try reflexivity; discriminate.
Qed.

Section FormAndValidate.
Context `{PyLib}.

Lemma value_in_choices_spec (value : pyvalue) (cs : list string) :
  value_in_choices value cs = true <-> exists s, value = PJson (JStr s) /\ In s cs.
Proof.
  split.
  - destruct value as [[]| |]; try discriminate. simpl. intros Hin.
    exists s. split; [reflexivity | apply existsb_eqb_In, Hin].
  - intros (s & -> & Hin). simpl. apply existsb_eqb_In, Hin.
Qed.

Lemma In_choice_options (s : string) (cs : list string) (blank : bool) :
  In (Some s, s)
     (if blank then add_blank_choice (map (fun c => (Some c, c)) cs)
      else map (fun c => (Some c, c)) cs)
  <-> In s cs.
Proof.
  assert (Hmap : In (Some s, s) (map (fun c => (Some c, c)) cs) <-> In s cs).
  { rewrite in_map_iff. split.
    - intros (c & [= <-] & Hin). exact Hin.
    - intros Hin. exists s. auto. }
  destruct blank; [|exact Hmap].
  unfold add_blank_choice. simpl. rewrite Hmap. split; [|auto].
  intros [Hblank | Hin]; [discriminate | exact Hin].
Qed.

(** X16.  The form of a select field offers exactly the values that [validate]
    accepts: a non-empty value is valid exactly when it is a string that is
    the value of one of the options of the field built by [to_form_field]. *)
Theorem select_form_choices_are_valid_values (self : CustomField)
    (set_initial enforce_required for_csv_import : bool) (field : FormField) (value : pyvalue) :
  type self = TYPE_SELECT ->
  to_form_field self set_initial enforce_required for_csv_import = Ok field ->
  is_empty_value value = false ->
  (validate self value = Ok tt
   <-> exists s, value = PJson (JStr s) /\ In (Some s, s) (field_choices field)).
Proof.
  intros Htype Hfield Hvalue.
  destruct (choices self) as [cs|] eqn:Hcs.
  - destruct (to_form_field_selection self cs set_initial enforce_required for_csv_import)
      as (field' & Hfield' & Hoptions & _); [rewrite Htype; reflexivity | exact Hcs |].
    rewrite Hfield in Hfield'. injection Hfield' as <-.
    rewrite (validate_nonempty_select _ _ Htype Hvalue), Hcs, Hoptions.
    destruct (value_in_choices value cs) eqn:Hin; simpl.
    + apply value_in_choices_spec in Hin. destruct Hin as (s & -> & Hs).
      split; [|reflexivity]. intros _. exists s. split; [reflexivity|].
      apply In_choice_options, Hs.
    + split; [discriminate|]. intros (s & -> & Hs).
      apply In_choice_options in Hs.
      assert (value_in_choices (PJson (JStr s)) cs = true) as Hin'
          by (apply value_in_choices_spec; eauto).
      congruence.
  - rewrite (to_form_field_without_choices self) in Hfield;
      [discriminate | rewrite Htype; reflexivity | exact Hcs].
Qed.

(** X17.  The bounds on the form of an integer field are the bounds that
    [validate] enforces: an integer is valid exactly when it lies within the
    [min_value] and [max_value] of the field built by [to_form_field]. *)
Theorem integer_form_bounds_are_validated (self : CustomField)
    (set_initial enforce_required for_csv_import : bool) (field : FormField) (z : Z) :
  type self = TYPE_INTEGER ->
  to_form_field self set_initial enforce_required for_csv_import = Ok field ->
  (validate self (PJson (JInt z)) = Ok tt
   <-> (forall lo, min_value field = Some lo -> (lo <= z)%Z)
       /\ (forall hi, max_value field = Some hi -> (z <= hi)%Z)).
Proof.
  intros Htype. unfold to_form_field. rewrite Htype. cbn. intros [= <-]. cbn.
  rewrite (validate_nonempty_integer self (PJson (JInt z)) Htype eq_refl).
  destruct (validation_minimum self) as [lo|], (validation_maximum self) as [hi|]; cbn.
  - destruct (Z.ltb_spec z lo); cbn.
    + split; [discriminate|]. intros [Hlo _]. specialize (Hlo lo eq_refl). lia.
    + destruct (Z.gtb_spec z hi); cbn.
      * split; [discriminate|]. intros [_ Hhi]. specialize (Hhi hi eq_refl). lia.
      * split; [|reflexivity]. intros _. split; intros ? [= <-]; lia.
  - destruct (Z.ltb_spec z lo); cbn.
    + split; [discriminate|]. intros [Hlo _]. specialize (Hlo lo eq_refl). lia.
    + split; [|reflexivity]. intros _. split; [intros ? [= <-]; lia | discriminate].
  - destruct (Z.gtb_spec z hi); cbn.
    + split; [discriminate|]. intros [_ Hhi]. specialize (Hhi hi eq_refl). lia.
    + split; [|reflexivity]. intros _. split; [discriminate | intros ? [= <-]; lia].
  - split; [|reflexivity]. intros _. split; discriminate.
Qed.

(** X18.  A selection field without a list of choices, with nothing else set,
    passes [clean]; yet no form field can be built for it and every non-empty
    value makes [validate] raise [TypeError]. *)
Theorem selection_without_choices_breaks (self : CustomField) :
  is_selection_type (type self) = true -> choices self = None -> default self = JNull ->
  validation_minimum self = None -> validation_maximum self = None ->
  validation_regex self = "" ->
  clean self = Ok tt
  /\ (forall set_initial enforce_required for_csv_import,
        to_form_field self set_initial enforce_required for_csv_import = Raised TypeError)
  /\ (forall value, is_empty_value value = false -> validate self value = Raised TypeError).
Proof.
  intros Hsel Hcs Hdefault Hmin Hmax Hregex. split_and!.
  - unfold clean. rewrite Hdefault, Hmin, Hmax, Hregex, Hcs.
    destruct (type self); reflexivity.
  - intros. apply to_form_field_without_choices; assumption.
  - intros value Hvalue. unfold is_selection_type in Hsel.
    apply orb_true_iff in Hsel. destruct Hsel as [Htype | Htype];
      apply bool_decide_eq_true in Htype.
    + rewrite (validate_nonempty_select _ _ Htype Hvalue), Hcs. reflexivity.
    + rewrite (validate_nonempty_multiselect _ _ Htype Hvalue), Hcs.
      unfold py_set. destruct (iter_items value) as [items|]; [|reflexivity].
      destruct (forallb hashable items); reflexivity.
Qed.

(** X19.  For a select definition that [clean] accepts and whose default is
    truthy, [to_form_field] builds a field whose initial value is the default
    and one of the choices; the blank option is offered exactly when the field
    is not required (or [enforce_required] is off). *)
Theorem clean_select_form (self : CustomField) (enforce_required for_csv_import : bool) :
  clean self = Ok tt -> type self = TYPE_SELECT -> truthy (default self) = true ->
  exists field cs,
    to_form_field self true enforce_required for_csv_import = Ok field
    /\ choices self = Some cs
    /\ initial field = default self
    /\ in_choices (initial field) cs = true
    /\ (In (None, "---------") (field_choices field)
        <-> enforce_required && required self = false).
Proof.
  intros Hclean Htype Htruthy.
  destruct (clean_ok_rules self Hclean) as (_ & _ & _ & _ & _ & _ & Hselect).
  destruct (Hselect Htype Htruthy) as (cs & Hcs & Hin).
  destruct (to_form_field_selection self cs true enforce_required for_csv_import)
    as (field & Hfield & Hoptions & _); [rewrite Htype; reflexivity | exact Hcs |].
  exists field, cs. split; [exact Hfield|]. split; [exact Hcs|].
  assert (Hinitial : initial field = default self).
  { revert Hfield. unfold to_form_field. rewrite Htype, Hcs. cbn. rewrite Hin, Htruthy.
    destruct for_csv_import; intros [= <-]; reflexivity. }
  split; [exact Hinitial|]. split; [rewrite Hinitial; exact Hin|].
  rewrite Hoptions, Hin. cbn [negb]. rewrite orb_false_r.
  destruct (enforce_required && required self); cbn.
  - split; [|discriminate]. rewrite in_map_iff. intros (c & Hc & _). discriminate.
  - split; [reflexivity|]. intros _. left. reflexivity.
Qed.

End FormAndValidate.

Lemma select_form_choices_are_valid_values_witness :
  type select_ab_x = TYPE_SELECT
  /\ to_form_field select_ab_x false true false
     = Ok (finish_field select_ab_x
             (with_widget (StaticSelect2 [])
                (with_choices [(None, "---------"); (Some "a", "a"); (Some "b", "b")]
                   (new_field ChoiceField false JNull))))
  /\ is_empty_value (PJson (JStr "b")) = false
  /\ validate select_ab_x (PJson (JStr "b")) = Ok tt.
Proof.
  split; [reflexivity|]. split; [reflexivity|]. split; [reflexivity|].
  apply (select_form_choices_are_valid_values select_ab_x false true false _
           (PJson (JStr "b")) eq_refl eq_refl eq_refl).
  exists "b". split; [reflexivity|]. right. right. left. reflexivity.
Defined.

Lemma integer_form_bounds_are_validated_witness :
  type integer_1_10 = TYPE_INTEGER
  /\ to_form_field integer_1_10 true true false
     = Ok (finish_field integer_1_10
             (with_bounds (Some 1%Z) (Some 10%Z) (new_field IntegerField false JNull)))
  /\ validate integer_1_10 (PJson (JInt 3)) = Ok tt.
Proof.
  split; [reflexivity|]. split; [reflexivity|].
  apply (integer_form_bounds_are_validated integer_1_10 true true false _ 3%Z
           eq_refl eq_refl).
  split; intros ? [= <-]; lia.
Defined.

Lemma selection_without_choices_breaks_witness :
  is_selection_type (type (select_choices None JNull)) = true
  /\ choices (select_choices None JNull) = None
  /\ default (select_choices None JNull) = JNull
  /\ validation_minimum (select_choices None JNull) = None
  /\ validation_maximum (select_choices None JNull) = None
  /\ validation_regex (select_choices None JNull) = ""
  /\ clean (select_choices None JNull) = Ok tt
  /\ to_form_field (select_choices None JNull) true true false = Raised TypeError
  /\ validate (select_choices None JNull) (PJson (JStr "red")) = Raised TypeError.
Proof.
  destruct (selection_without_choices_breaks (select_choices None JNull)
              eq_refl eq_refl eq_refl eq_refl eq_refl eq_refl) as (Hclean & Hform & Hvalid).
  split_and!; [reflexivity | reflexivity | reflexivity | reflexivity | reflexivity
              | reflexivity | exact Hclean | apply Hform | apply Hvalid; reflexivity].
Defined.

Lemma clean_select_form_witness :
  clean (select_choices (Some ["a"; "b"]) (JStr "a")) = Ok tt
  /\ type (select_choices (Some ["a"; "b"]) (JStr "a")) = TYPE_SELECT
  /\ truthy (default (select_choices (Some ["a"; "b"]) (JStr "a"))) = true
  /\ exists field cs,
       to_form_field (select_choices (Some ["a"; "b"]) (JStr "a")) true true false = Ok field
       /\ choices (select_choices (Some ["a"; "b"]) (JStr "a")) = Some cs
       /\ initial field = default (select_choices (Some ["a"; "b"]) (JStr "a"))
       /\ in_choices (initial field) cs = true
       /\ (In (None, "---------") (field_choices field)
           <-> true && required (select_choices (Some ["a"; "b"]) (JStr "a")) = false).
Proof.
  split; [reflexivity|]. split; [reflexivity|]. split; [reflexivity|].
  apply (clean_select_form (select_choices (Some ["a"; "b"]) (JStr "a")) true false);
    reflexivity.
Defined.

Lemma to_form_field_csv_import_witness :
  is_selection_type (type integer_1_10) = false
  /\ to_form_field integer_1_10 true true true = to_form_field integer_1_10 true true false.
Proof.
  split; [reflexivity|].
  apply (to_form_field_csv_import integer_1_10 true true). reflexivity.
Defined.






(** ** The bulk operations over several content types *)

Section SyncOverLists.

Implicit Types (objects : Table) (data : gmap string json) (db : Database).













End SyncOverLists.

(** ** Inputs on which the further properties apply *)










(** X28.  On a multiple-selection field with a list of choices, a list of
    strings never makes [validate] raise anything but the validation error: it
    is valid exactly when every string of the list is a choice, so neither the
    order of the list nor a repeated string matters, and the error names the
    values and the choices. *)
Theorem validate_multiselect_string_list `{PyLib} (self : CustomField) (cs l : list string) :
  type self = TYPE_MULTISELECT -> choices self = Some cs ->
  (validate self (PJson (JArr (map JStr l))) = Ok tt <-> forall s, In s l -> In s cs)
  /\ (validate self (PJson (JArr (map JStr l))) = Ok tt
      \/ validate self (PJson (JArr (map JStr l)))
         = Invalid (InvalidChoicesOf (join ", " l) (join ", " cs))).
Proof.
  intros Htype Hcs. rewrite (validate_multiselect_strings self cs l Htype Hcs).
  destruct (forallb (fun s => existsb (String.eqb s) cs) l) eqn:Hall.
  - split; [|left; reflexivity]. split; [|reflexivity]. intros _ s Hs.
    rewrite forallb_forall in Hall. apply existsb_eqb_In, Hall, Hs.
  - split; [|right; reflexivity]. split; [discriminate|]. intros Hsub.
    assert (forallb (fun s => existsb (String.eqb s) cs) l = true) as Hall'.
    { apply forallb_forall. intros s Hs. apply existsb_eqb_In, Hsub, Hs. }
    congruence.
Qed.

Lemma validate_multiselect_string_list_witness :
  type (multiselect_abc JNull) = TYPE_MULTISELECT
  /\ choices (multiselect_abc JNull) = Some ["a"; "b"; "c"]
  /\ validate (multiselect_abc JNull) (PJson (JArr (map JStr ["c"; "a"; "c"]))) = Ok tt.
Proof.
  split; [reflexivity|]. split; [reflexivity|].
  apply (validate_multiselect_string_list (multiselect_abc JNull) ["a"; "b"; "c"]
           ["c"; "a"; "c"] eq_refl eq_refl).
  intros s [<- | [<- | [<- | []]]]; simpl; auto.
Defined.

